(** * MoE hybrid-parallel plugin: configuration and group assignment

    A shallow embedding of
    [colossalai/booster/plugin/moe_hybrid_parallel_plugin.py]:
    the constructor of [MoeHybridParallelZeroOptimizer], the constructor of
    [MoeHybridParallelPlugin] and [MoeHybridParallelPlugin.configure].

    Python code that raises, warns and calls into other modules is embedded
    in a writer/error monad [M]: a computation yields the list of observable
    events it produced, in program order, together with either the raised
    exception or the returned value.  Classes imported from other modules of
    the package are collaborators: their constructors are fields of the
    [Collaborators] class and every call made to them is recorded in the
    trace at the call site. *)

From Stdlib Require Import ZArith QArith Lia Permutation.
From stdpp Require Import base option list gmap strings.

Local Open Scope string_scope.
Local Open Scope Z_scope.
Local Open Scope list_scope.

(** ** Python values *)

(** Dynamically typed values that travel through keyword dictionaries
    ([ddp_config], [zero_config], [amp_config]) and flag arguments. *)
Inductive pyval : Type :=
| VNone
| VBool (b : bool)
| VInt (z : Z)
| VFloat (q : Q)
| VStr (s : string)
| VDtype (name : string).

(** Truth value testing, as used by [if], [not], [and] and [or]. *)
Definition truthy (v : pyval) : bool :=
  match v with
  | VNone => false
  | VBool b => b
  | VInt z => negb (z =? 0)
  | VFloat q => negb (Qeq_bool q 0)
  | VStr s => negb (String.eqb s "")
  | VDtype _ => true
  end.

(** [a or b] evaluates to [a] when [a] is truthy and to [b] otherwise. *)
Definition py_or (a b : pyval) : pyval := if truthy a then a else b.

Lemma truthy_py_or (a b : pyval) : truthy (py_or a b) = truthy a || truthy b.
Proof. unfold py_or. destruct (truthy a) eqn:E; simpl; [exact E | reflexivity]. Qed.

(** ** Objects *)

(** Process groups are opaque handles; two handles denote the same group
    object exactly when they are equal. *)
Definition ProcessGroup : Type := positive.

(** Model parameters ([torch.nn.Parameter] tensors), identified by object
    identity. *)
Definition Tensor : Type := positive.

(** An optimizer object.  [optim_is_wrapper] is the answer of
    [isinstance(optimizer, OptimizerWrapper)]; [optim_params] are the
    parameters its parameter groups refer to. *)
Record Optimizer : Type := mkOptimizer {
  optim_id : positive;
  optim_is_wrapper : bool;
  optim_params : list Tensor
}.

(** [optimizer.name]: a method bound to an optimizer object. *)
Inductive bound_method : Type :=
| BoundMethod (owner : Optimizer) (name : string).

(** Values stored in a module's instance dictionary.
    [MethodType f obj] is the result of [types.MethodType(f, obj)]: calling
    it calls [f] with the object identified by [obj] as first argument. *)
Inductive attr : Type :=
| MethodType (func : bound_method) (self_id : positive).

(** A model object.  [module_is_wrapper] is the answer of
    [isinstance(model, ModelWrapper)], [module_parameters] what
    [model.parameters()] yields, and [module_dict] the instance dictionary
    that attribute assignment writes to. *)
Record Module : Type := mkModule {
  module_id : positive;
  module_is_wrapper : bool;
  module_parameters : list Tensor;
  module_dict : gmap string attr
}.

(** [model.name = v] *)
Definition setattr (m : Module) (name : string) (v : attr) : Module :=
  {| module_id := module_id m;
     module_is_wrapper := module_is_wrapper m;
     module_parameters := module_parameters m;
     module_dict := <[name := v]> (module_dict m) |}.

(** [model.name], looked up in the instance dictionary. *)
Definition getattr (m : Module) (name : string) : option attr :=
  module_dict m !! name.

(** ** Exceptions *)

Inductive exn : Type :=
| RuntimeError (msg : string)
| NotImplementedError
| ZeroDivisionError
| TypeError (msg : string)
| ConfigurationError (msg : string)
| Raised (origin : string).      (* raised inside a collaborator *)

(** ** Observable events *)

(** What a run does besides returning: warnings, log lines and the calls it
    makes into collaborators, recorded at the call site in program order. *)
Inductive event : Type :=
| Warn (msg : string)                                   (* warnings.warn *)
| LoggerInfo (ep_size moe_dp_size moe_tp_size : Z)      (* self.logger.info *)
| BuildMesh (sizes : list Z)                            (* ProcessGroupMesh(...) *)
| GetGroupAlongAxis (axis : Z)                          (* mesh.get_group_along_axis *)
| CallHybridParallelModule (m : Module)
| CallReinitializeOptimizer (o : Optimizer) (m : Module)
| CallAMPOptimizer (o : Optimizer) (m : Module)
| CallNaiveOptimizer (o : Optimizer) (m : Module)
| CallMoeZeroOptimizer (o : Optimizer) (m : Module)
| CallZeroOptimizerBase (o : Optimizer) (m : Module)    (* super().__init__ *)
| SetAttr (m : Module) (name : string).                 (* model.name = ... *)

(** ** The monad of runs *)

Record M (A : Type) : Type := Run {
  trace : list event;
  outcome : exn + A
}.
Arguments Run {A} _ _.
Arguments trace {A} _.
Arguments outcome {A} _.

Global Instance M_ret : MRet M := λ A x, Run [] (inr x).

Global Instance M_bind : MBind M := λ A B f m,
  match outcome m with
  | inl e => Run (trace m) (inl e)
  | inr x => Run (trace m ++ trace (f x)) (outcome (f x))
  end.

(** [raise e] *)
Definition raise {A : Type} (e : exn) : M A := Run [] (inl e).

(** Record one event. *)
Definition emit (ev : event) : M unit := Run [ev] (inr tt).

(** [warnings.warn(msg)] *)
Definition warn (msg : string) : M unit := emit (Warn msg).

(** A call into a collaborator: the call is recorded, then the callee either
    raises or returns. *)
Definition call {A : Type} (ev : event) (r : exn + A) : M A := Run [ev] r.

Definition returns {A : Type} (m : M A) (x : A) : Prop := outcome m = inr x.
Definition raises {A : Type} (m : M A) (e : exn) : Prop := outcome m = inl e.
Definition fails {A : Type} (m : M A) : Prop := ∃ e, outcome m = inl e.

(** ** Opaque collaborator data *)

Definition ParamInfo : Type := positive.     (* result of get_param_info *)
Definition Policy : Type := positive.        (* custom_policy *)
Definition Callable : Type := positive.      (* criterion *)
Definition DataLoader : Type := positive.
Definition LRScheduler : Type := positive.

(** Keyword dictionaries such as [zero_config] and [amp_config]. *)
Abbreviation kwargs := (gmap string pyval).

(** [shard_config]; only its [ep_group] attribute is written here. *)
Record ShardConfig : Type := mkShardConfig {
  shard_config_id : positive;
  sc_ep_group : option ProcessGroup
}.

(** ** Arguments of the sharded optimizer *)

(** The keyword parameters of [MoeHybridParallelZeroOptimizer.__init__] that
    have defaults. *)
Record ZeroKw : Type := mkZeroKw {
  initial_scale : pyval;
  min_scale : pyval;
  growth_factor : pyval;
  backoff_factor : pyval;
  growth_interval : pyval;
  hysteresis : pyval;
  max_scale : pyval;
  clip_grad_norm : pyval;
  verbose : pyval;
  reduce_bucket_size : pyval;
  communication_dtype : pyval;
  overlap_communication : pyval;
  partition_grad : pyval;
  cpu_offload : pyval;
  forced_dtype : pyval
}.

(** The defaults written in the signature. *)
Definition ZeroKw_defaults : ZeroKw :=
  {| initial_scale := VInt (2 ^ 16);
     min_scale := VInt 1;
     growth_factor := VFloat (2 # 1);
     backoff_factor := VFloat (1 # 2);
     growth_interval := VInt 2000;
     hysteresis := VInt 2;
     max_scale := VInt (2 ^ 24);
     clip_grad_norm := VFloat (0 # 1);
     verbose := VBool false;
     reduce_bucket_size := VInt (1024 * 1024);
     communication_dtype := VNone;
     overlap_communication := VBool false;
     partition_grad := VBool false;
     cpu_offload := VBool false;
     forced_dtype := VNone |}.

Definition set_overlap_communication (v : pyval) (kw : ZeroKw) : ZeroKw :=
  {| initial_scale := initial_scale kw;
     min_scale := min_scale kw;
     growth_factor := growth_factor kw;
     backoff_factor := backoff_factor kw;
     growth_interval := growth_interval kw;
     hysteresis := hysteresis kw;
     max_scale := max_scale kw;
     clip_grad_norm := clip_grad_norm kw;
     verbose := verbose kw;
     reduce_bucket_size := reduce_bucket_size kw;
     communication_dtype := communication_dtype kw;
     overlap_communication := v;
     partition_grad := partition_grad kw;
     cpu_offload := cpu_offload kw;
     forced_dtype := forced_dtype kw |}.

(** All parameters of [MoeHybridParallelZeroOptimizer.__init__]. *)
Record ZeroArgs : Type := mkZeroArgs {
  za_optimizer : Optimizer;
  za_model : Module;
  za_use_pipeline : bool;
  za_force_overlap_comm : pyval;
  za_dp_process_group : option ProcessGroup;
  za_tp_process_group : option ProcessGroup;
  za_pp_process_group : option ProcessGroup;
  za_moe_dp_group : ProcessGroup;
  za_param_info : ParamInfo;
  za_kw : ZeroKw
}.

(** The group assignment: a dict from group handle to parameter list.  The
    data-parallel handle may be [None], which is a legal dict key. *)
Abbreviation pg_map := (gmap (option ProcessGroup) (list Tensor)).

(** The keyword arguments handed to [HybridParallelZeroOptimizer.__init__]. *)
Record ZeroBaseArgs : Type := mkZeroBaseArgs {
  zb_model : Module;
  zb_optimizer : Optimizer;
  zb_use_pipeline : bool;
  zb_param_info : ParamInfo;
  zb_kw : ZeroKw;
  zb_tp_process_group : option ProcessGroup;
  zb_pp_process_group : option ProcessGroup;
  zb_pg_to_param_list : pg_map
}.

(** ** Arguments of the other collaborators *)

(** Keyword arguments of [HybridParallelModule(...)]. *)
Record ModuleArgs : Type := mkModuleArgs {
  ma_module : Module;
  ma_precision : string;
  ma_shard_config : ShardConfig;
  ma_dp_group : option ProcessGroup;
  ma_tp_group : option ProcessGroup;
  ma_sp_group : option ProcessGroup;
  ma_use_ddp : bool;
  ma_ddp_config : kwargs;
  ma_custom_policy : Policy
}.

(** Arguments of [HybridParallelAMPOptimizer(...)]. *)
Record AMPArgs : Type := mkAMPArgs {
  aa_optimizer : Optimizer;
  aa_model : Module;
  aa_use_pipeline : bool;
  aa_param_info : ParamInfo;
  aa_precision : string;
  aa_max_norm : pyval;
  aa_amp_config : kwargs
}.

(** Arguments of [HybridParallelNaiveOptimizer(...)]. *)
Record NaiveArgs : Type := mkNaiveArgs {
  na_optimizer : Optimizer;
  na_model : Module;
  na_use_pipeline : bool;
  na_param_info : ParamInfo
}.

(** ** Process group mesh *)

(** The mesh object: the ordered axis sizes it was built with. *)
Record ProcessGroupMesh : Type := mkMesh {
  mesh_shape : list Z
}.

Definition prod_sizes (sizes : list Z) : Z := foldr Z.mul 1 sizes.

(** Modelled from the spec: the constructor of [ProcessGroupMesh]
    ([colossalai.cluster.process_group_mesh], not among the sources at hand).
    Section 4.1: [build(axisSizes)] fails with [ConfigurationError] if the
  product of the sizes differs from the world size. *)
Definition ProcessGroupMesh_build (world_size : Z) (sizes : list Z)
: exn + ProcessGroupMesh :=
if prod_sizes sizes =? world_size
then inr {| mesh_shape := sizes |}
else inl (ConfigurationError "product of axis sizes differs from the world size").

(** ** Collaborators *)

(** Functions and classes imported from other modules.  A constructor either
  raises or returns the new object; [reinitialize_optimizer] updates the
  optimizer in place, which is rendered by returning its new state. *)
Class Collaborators : Type := {
is_moe_tensor : Tensor → bool;
get_param_info : option Optimizer → ParamInfo;
reinitialize_optimizer : Optimizer → Module → exn + Optimizer;
HybridParallelModule : ModuleArgs → exn + Module;
HybridParallelAMPOptimizer : AMPArgs → exn + Optimizer;
HybridParallelNaiveOptimizer : NaiveArgs → exn + Optimizer;
HybridParallelZeroOptimizer : ZeroBaseArgs → exn + Optimizer;
get_group_along_axis : ProcessGroupMesh → Z → ProcessGroup
}.

(** ** MoeHybridParallelZeroOptimizer *)

Definition WARN_STR : string :=
"Note that you need to make sure every expert are routed (i.e.) every expert has backward, otherwise this might lead to program hang or inconsistent result".

(** The dict literal [{dp_process_group: regular, moe_dp_group: expert}]:
  entries are inserted left to right, a later equal key replaces the
  value of an earlier one. *)
Definition pg_param_list_of (is_moe : Tensor → bool)
  (dp_process_group : option ProcessGroup) (moe_dp_group : ProcessGroup)
  (parameters : list Tensor) : pg_map :=
<[Some moe_dp_group := List.filter is_moe parameters]>
  (<[dp_process_group := List.filter (λ p, negb (is_moe p)) parameters]> ∅).

Section ZeroOptimizer.
Context `{Collaborators}.

(** Lines 56-61: the configuration check. *)
Definition check_overlap (force_overlap_comm overlap partition : pyval) : M unit :=
  if negb (truthy force_overlap_comm) && truthy (py_or overlap partition)
  then raise (RuntimeError (WARN_STR +:+
         " If you are not sure about this, set (overlap_communication=False and partition_grad=False) or force_overlap_comm=True"))
  else mret tt.

(** Lines 63-65: the value of [overlap_communication] after the forced
    override. *)
Definition force_overlap (force_overlap_comm overlap : pyval) : M pyval :=
  if truthy force_overlap_comm
  then warn (WARN_STR +:+ " Please make sure of this.");; mret (VBool true)
  else mret overlap.

(** The arguments of the [super().__init__] call, lines 72-97. *)
Definition zero_base_args (a : ZeroArgs) (overlap : pyval) (pg : pg_map)
  : ZeroBaseArgs :=
  {| zb_model := za_model a;
     zb_optimizer := za_optimizer a;
     zb_use_pipeline := za_use_pipeline a;
     zb_param_info := za_param_info a;
     zb_kw := set_overlap_communication overlap (za_kw a);
     zb_tp_process_group := za_tp_process_group a;
     zb_pp_process_group := za_pp_process_group a;
     zb_pg_to_param_list := pg |}.

(** [MoeHybridParallelZeroOptimizer.__init__] *)
Definition MoeHybridParallelZeroOptimizer (a : ZeroArgs) : M Optimizer :=
  check_overlap (za_force_overlap_comm a)
                (overlap_communication (za_kw a)) (partition_grad (za_kw a));;
  overlap ← force_overlap (za_force_overlap_comm a)
                          (overlap_communication (za_kw a));
  let pg_param_list :=
    pg_param_list_of is_moe_tensor (za_dp_process_group a) (za_moe_dp_group a)
                     (module_parameters (za_model a)) in
  call (CallZeroOptimizerBase (za_optimizer a) (za_model a))
       (HybridParallelZeroOptimizer (zero_base_args a overlap pg_param_list)).

End ZeroOptimizer.

(** ** MoeHybridParallelPlugin *)

(** The attributes that [HybridParallelPlugin.__init__] leaves on [self] and
  that this file reads. *)
Record HybridParallelPlugin : Type := mkBase {
dp_size : Z;
pp_size : Z;
zero_stage : Z;
ddp_config : kwargs;
precision : string;
shard_config : ShardConfig;
dp_group : option ProcessGroup;
tp_group : option ProcessGroup;
pp_group : option ProcessGroup;
sp_group : option ProcessGroup;
custom_policy : Policy;
enable_pipeline_parallelism : bool;
max_norm : pyval;
amp_config : kwargs;
zero_config : kwargs
}.

(** [self.ddp_config[key] = v] *)
Definition set_ddp_config_item (self : HybridParallelPlugin) (key : string) (v : pyval)
: HybridParallelPlugin :=
{| dp_size := dp_size self; pp_size := pp_size self; zero_stage := zero_stage self;
   ddp_config := <[key := v]> (ddp_config self);
   precision := precision self; shard_config := shard_config self;
   dp_group := dp_group self; tp_group := tp_group self;
   pp_group := pp_group self; sp_group := sp_group self;
   custom_policy := custom_policy self;
   enable_pipeline_parallelism := enable_pipeline_parallelism self;
   max_norm := max_norm self; amp_config := amp_config self;
   zero_config := zero_config self |}.

(** [self.shard_config.ep_group = g] *)
Definition set_shard_config_ep_group (self : HybridParallelPlugin) (g : ProcessGroup)
: HybridParallelPlugin :=
{| dp_size := dp_size self; pp_size := pp_size self; zero_stage := zero_stage self;
   ddp_config := ddp_config self;
   precision := precision self;
   shard_config := {| shard_config_id := shard_config_id (shard_config self);
                      sc_ep_group := Some g |};
   dp_group := dp_group self; tp_group := tp_group self;
   pp_group := pp_group self; sp_group := sp_group self;
   custom_policy := custom_policy self;
   enable_pipeline_parallelism := enable_pipeline_parallelism self;
   max_norm := max_norm self; amp_config := amp_config self;
   zero_config := zero_config self |}.

(** The plugin object once [__init__] has returned. *)
Record MoeHybridParallelPlugin : Type := mkPlugin {
base : HybridParallelPlugin;
use_ddp : bool;
moe_dp_size : Z;
ep_size : Z;
moe_tp_size : Z;
moe_pg_mesh : ProcessGroupMesh;
moe_dp_axis : Z;
ep_axis : Z;
moe_tp_axis : Z;
moe_dp_group : ProcessGroup;
ep_group : ProcessGroup;
moe_tp_group : ProcessGroup;
force_overlap_comm : pyval
}.

(** [a // b] on Python integers: floor division, [ZeroDivisionError] when
  the divisor is zero. *)
Definition floordiv (a b : Z) : M Z :=
if b =? 0 then raise ZeroDivisionError else mret (a / b).

(** Line 108. *)
Definition use_ddp_of (self : HybridParallelPlugin) : bool :=
(1 <? dp_size self) && (pp_size self =? 1) && (zero_stage self =? 0).

Definition DDP_WARNING : string :=
"Will have to check all params are used in pytorch DDP since not all experts are always activated".

(** Lines 109-113. *)
Definition configure_ddp (self : HybridParallelPlugin) : M HybridParallelPlugin :=
if use_ddp_of self
then warn DDP_WARNING;;
     mret (set_ddp_config_item self "find_unused_parameters" (VBool true))
else mret self.

(** Lines 118-122: the three axis sizes handed to the mesh. *)
Definition moe_axis_sizes (world_size ep_size moe_tp_size : Z) : M (Z * Z * Z) :=
moe_dp_size ← floordiv world_size (ep_size * moe_tp_size);
mret (moe_dp_size, ep_size, moe_tp_size).

Section Plugin.
Context `{Collaborators}.

(** The body of [MoeHybridParallelPlugin.__init__] after the call of the
    base constructor (lines 108-137); [self] carries the attributes the
    base constructor has set and [world_size] is the answer of
    [dist.get_world_size()]. *)
Definition MoeHybridParallelPlugin_init_body
    (self : HybridParallelPlugin) (world_size : Z)
    (ep_size moe_tp_size : Z) (force_overlap_comm : pyval)
  : M MoeHybridParallelPlugin :=
  let use_ddp := use_ddp_of self in
  self ← configure_ddp self;
  (if negb (moe_tp_size =? 1) then raise NotImplementedError else mret tt);;
  '(moe_dp_size, ep_size, moe_tp_size) ← moe_axis_sizes world_size ep_size moe_tp_size;
  moe_pg_mesh ← call (BuildMesh [moe_dp_size; ep_size; moe_tp_size])
                     (ProcessGroupMesh_build world_size
                        [moe_dp_size; ep_size; moe_tp_size]);
  let '(moe_dp_axis, ep_axis, moe_tp_axis) := (0, 1, 2) in
  moe_dp_group ← call (GetGroupAlongAxis moe_dp_axis)
                      (inr (get_group_along_axis moe_pg_mesh moe_dp_axis));
  ep_group ← call (GetGroupAlongAxis ep_axis)
                  (inr (get_group_along_axis moe_pg_mesh ep_axis));
  moe_tp_group ← call (GetGroupAlongAxis moe_tp_axis)
                      (inr (get_group_along_axis moe_pg_mesh moe_tp_axis));
  emit (LoggerInfo ep_size moe_dp_size moe_tp_size);;
  let self := set_shard_config_ep_group self ep_group in
  mret {| base := self;
          use_ddp := use_ddp;
          moe_dp_size := moe_dp_size;
          ep_size := ep_size;
          moe_tp_size := moe_tp_size;
          moe_pg_mesh := moe_pg_mesh;
          moe_dp_axis := moe_dp_axis;
          ep_axis := ep_axis;
          moe_tp_axis := moe_tp_axis;
          moe_dp_group := moe_dp_group;
          ep_group := ep_group;
          moe_tp_group := moe_tp_group;
          force_overlap_comm := force_overlap_comm |}.

(** [MoeHybridParallelPlugin.__init__].  [super_init] is the run of
    [super().__init__] on the remaining positional and keyword arguments. *)
Definition MoeHybridParallelPlugin_init
    (super_init : M HybridParallelPlugin) (world_size : Z)
    (ep_size moe_tp_size : Z) (force_overlap_comm : pyval)
  : M MoeHybridParallelPlugin :=
  self ← super_init;
  MoeHybridParallelPlugin_init_body self world_size ep_size moe_tp_size
                                    force_overlap_comm.

End Plugin.

(** ** configure *)

(** The parameters of the sharded optimizer that [configure] does not pass
  explicitly and that may therefore arrive through [**self.zero_config]
  and [**self.amp_config]. *)
Definition zero_config_keys : list string :=
["initial_scale"; "min_scale"; "growth_factor"; "backoff_factor";
 "growth_interval"; "hysteresis"; "max_scale"; "reduce_bucket_size";
 "communication_dtype"; "overlap_communication"; "partition_grad";
 "cpu_offload"; "forced_dtype"].

(** Binding of the keyword arguments of the call at lines 192-206:
  [verbose] and [clip_grad_norm] are given explicitly, the others come
  from the two dictionaries or fall back to the defaults.  A key present in
  both dictionaries, a key that repeats an explicit argument and a key
  the signature does not have are [TypeError]s. *)
Definition bind_zero_kwargs (max_norm : pyval) (zc ac : kwargs) : M ZeroKw :=
if negb (bool_decide (dom zc ## (dom ac : gset string)))
then raise (TypeError "got multiple values for keyword argument")
else if negb (bool_decide (dom zc ∪ dom ac ⊆ (list_to_set zero_config_keys : gset string)))
then raise (TypeError "unexpected or repeated keyword argument")
else
  let kw := zc ∪ ac in
  let get (name : string) (dflt : ZeroKw → pyval) : pyval :=
    default (dflt ZeroKw_defaults) (kw !! name) in
  mret {| initial_scale := get "initial_scale" initial_scale;
          min_scale := get "min_scale" min_scale;
          growth_factor := get "growth_factor" growth_factor;
          backoff_factor := get "backoff_factor" backoff_factor;
          growth_interval := get "growth_interval" growth_interval;
          hysteresis := get "hysteresis" hysteresis;
          max_scale := get "max_scale" max_scale;
          clip_grad_norm := max_norm;
          verbose := VBool true;
          reduce_bucket_size := get "reduce_bucket_size" reduce_bucket_size;
          communication_dtype := get "communication_dtype" communication_dtype;
          overlap_communication := get "overlap_communication" overlap_communication;
          partition_grad := get "partition_grad" partition_grad;
          cpu_offload := get "cpu_offload" cpu_offload;
          forced_dtype := get "forced_dtype" forced_dtype |}.

Definition ZERO_DP1_WARNING : string :=
"Use Zero Optimizer when data parallel size is 1 may introduce unnecessary overhead. If you do not intend to use cpu_offload, please consider set zero_stage=0.".

(** [precision in ["fp16", "bf16"]] *)
Definition is_half_precision (p : string) : bool :=
String.eqb p "fp16" || String.eqb p "bf16".

Section Configure.
Context `{Collaborators}.

(** Lines 153-164. *)
Definition wrap_model (self : MoeHybridParallelPlugin) (model : Module) : M Module :=
  if negb (module_is_wrapper model)
  then call (CallHybridParallelModule model)
            (HybridParallelModule
               {| ma_module := model;
                  ma_precision := precision (base self);
                  ma_shard_config := shard_config (base self);
                  ma_dp_group := dp_group (base self);
                  ma_tp_group := tp_group (base self);
                  ma_sp_group := sp_group (base self);
                  ma_use_ddp := use_ddp self;
                  ma_ddp_config := ddp_config (base self);
                  ma_custom_policy := custom_policy (base self) |})
  else mret model.

(** Lines 166-169. *)
Definition reinitialize_if_ep (self : MoeHybridParallelPlugin)
    (optimizer : Optimizer) (model : Module) : M Optimizer :=
  if 1 <? ep_size self
  then call (CallReinitializeOptimizer optimizer model)
            (reinitialize_optimizer optimizer model)
  else mret optimizer.

(** The arguments of the call at lines 192-206, once the keyword
    dictionaries are bound. *)
Definition zero_optimizer_args (self : MoeHybridParallelPlugin)
    (optimizer : Optimizer) (model : Module) (param_info : ParamInfo)
    (kw : ZeroKw) : ZeroArgs :=
  {| za_optimizer := optimizer;
     za_model := model;
     za_use_pipeline := enable_pipeline_parallelism (base self);
     za_force_overlap_comm := force_overlap_comm self;
     za_dp_process_group := dp_group (base self);
     za_tp_process_group := tp_group (base self);
     za_pp_process_group := pp_group (base self);
     za_moe_dp_group := moe_dp_group self;
     za_param_info := param_info;
     za_kw := kw |}.

(** Lines 192-206: the call of the sharded optimizer's constructor. *)
Definition call_zero_optimizer (self : MoeHybridParallelPlugin)
    (optimizer : Optimizer) (model : Module) (param_info : ParamInfo) : M Optimizer :=
  emit (CallMoeZeroOptimizer optimizer model);;
  kw ← bind_zero_kwargs (max_norm (base self))
                        (zero_config (base self)) (amp_config (base self));
  MoeHybridParallelZeroOptimizer
    (zero_optimizer_args self optimizer model param_info kw).

(** Lines 187-206. *)
Definition build_zero_optimizer (self : MoeHybridParallelPlugin)
    (optimizer : Optimizer) (model : Module) (param_info : ParamInfo) : M Optimizer :=
  (if negb ((1 <? dp_size (base self)) || (1 <? moe_dp_size self))
   then warn ZERO_DP1_WARNING else mret tt);;
  call_zero_optimizer self optimizer model param_info.

(** Lines 171-206: the optimizer wrapper chosen by ZeRO stage and
    precision. *)
Definition build_optimizer_wrapper (self : MoeHybridParallelPlugin)
    (optimizer : Optimizer) (model : Module) (param_info : ParamInfo) : M Optimizer :=
  if zero_stage (base self) =? 0
  then
    if is_half_precision (precision (base self))
    then call (CallAMPOptimizer optimizer model)
              (HybridParallelAMPOptimizer
                 {| aa_optimizer := optimizer;
                    aa_model := model;
                    aa_use_pipeline := enable_pipeline_parallelism (base self);
                    aa_param_info := param_info;
                    aa_precision := precision (base self);
                    aa_max_norm := max_norm (base self);
                    aa_amp_config := amp_config (base self) |})
    else call (CallNaiveOptimizer optimizer model)
              (HybridParallelNaiveOptimizer
                 {| na_optimizer := optimizer;
                    na_model := model;
                    na_use_pipeline := enable_pipeline_parallelism (base self);
                    na_param_info := param_info |})
  else build_zero_optimizer self optimizer model param_info.

(** Lines 207-208. *)
Definition inject_update_master_params (model : Module) (optimizer : Optimizer)
  : M Module :=
  emit (SetAttr model "update_master_params");;
  mret (setattr model "update_master_params"
          (MethodType (BoundMethod optimizer "update_master_params")
                      (module_id model))).

(** [MoeHybridParallelPlugin.configure] *)
Definition configure (self : MoeHybridParallelPlugin)
    (model : Module) (optimizer : option Optimizer)
    (criterion : option Callable) (dataloader : option DataLoader)
    (lr_scheduler : option LRScheduler)
  : M (Module * option Optimizer * option Callable * option DataLoader
       * option LRScheduler) :=
  let param_info := get_param_info optimizer in
  model ← wrap_model self model;
  match optimizer with
  | Some raw =>
      if negb (optim_is_wrapper raw)
      then
        raw ← reinitialize_if_ep self raw model;
        wrapped ← build_optimizer_wrapper self raw model param_info;
        model ← inject_update_master_params model wrapped;
        mret (model, Some wrapped, criterion, dataloader, lr_scheduler)
      else mret (model, optimizer, criterion, dataloader, lr_scheduler)
  | None => mret (model, optimizer, criterion, dataloader, lr_scheduler)
  end.

End Configure.


(** ** Vocabulary of the properties *)

(** Events that build a mesh or obtain a group from one. *)
Definition is_mesh_event (ev : event) : bool :=
match ev with
| BuildMesh _ | GetGroupAlongAxis _ => true
| _ => false
end.

(** Events that construct a model wrapper. *)
Definition is_module_wrapping (ev : event) : bool :=
match ev with
| CallHybridParallelModule _ => true
| _ => false
end.

(** Events that construct an optimizer wrapper. *)
Definition is_wrapper_construction (ev : event) : bool :=
match ev with
| CallAMPOptimizer _ _ | CallNaiveOptimizer _ _
| CallMoeZeroOptimizer _ _ | CallZeroOptimizerBase _ _ => true
| _ => false
end.

Definition is_reinitialization (ev : event) : bool :=
match ev with
| CallReinitializeOptimizer _ _ => true
| _ => false
end.

Definition is_setattr (ev : event) : bool :=
match ev with
| SetAttr _ _ => true
| _ => false
end.

Definition is_warning (ev : event) : bool :=
match ev with
| Warn _ => true
| _ => false
end.

(** Anything [configure] does to or with the optimizer. *)
Definition is_optimizer_event (ev : event) : bool :=
is_reinitialization ev || is_wrapper_construction ev || is_setattr ev.

(** [model.update_master_params] is [MethodType(o.update_master_params, model)]. *)
Definition exposes_update_master_params (m : Module) (o : Optimizer) : Prop :=
getattr m "update_master_params"
= Some (MethodType (BoundMethod o "update_master_params") (module_id m)).

(** A stable two-way partition of [parameters] stored under the two group
  handles: exactly two lists, the regular one holding the tensors the
  classifier rejects and the expert one those it accepts, disjoint,
  together a rearrangement of the input, each in input order. *)
Definition stable_two_way_partition (is_moe : Tensor → bool)
  (dp_process_group : option ProcessGroup) (moe_dp_group : ProcessGroup)
  (parameters : list Tensor) (pg : pg_map) : Prop :=
∃ regular expert : list Tensor,
  pg !! dp_process_group = Some regular
  ∧ pg !! Some moe_dp_group = Some expert
  ∧ size pg = 2%nat
  ∧ Forall (λ p, is_moe p = false) regular
  ∧ Forall (λ p, is_moe p = true) expert
  ∧ (∀ p, p ∈ regular → p ∈ expert → False)
  ∧ regular ++ expert ≡ₚ parameters
  ∧ (NoDup parameters → NoDup (regular ++ expert))
  ∧ regular `sublist_of` parameters
  ∧ expert `sublist_of` parameters.

(** The three axis sizes, whenever they are computed, multiply to the world
  size. *)
Definition axis_product_is_world_size (world_size ep_size moe_tp_size : Z) : Prop :=
∀ d e t, returns (moe_axis_sizes world_size ep_size moe_tp_size) (d, e, t) →
         d * e * t = world_size.

(** A construction that completes after warning about unused parameters
  and switching [find_unused_parameters] on. *)
Definition ddp_tolerated (run : M MoeHybridParallelPlugin) : Prop :=
∃ plugin, returns run plugin
          ∧ Warn DDP_WARNING ∈ trace run
          ∧ ddp_config (base plugin) !! "find_unused_parameters" = Some (VBool true).

Abbreviation configured :=
(Module * option Optimizer * option Callable * option DataLoader
 * option LRScheduler)%type.

(** A [configure] run that warns about the degenerate data-parallel size
  and still returns an optimizer. *)
Definition zero_dp1_warned_and_built (run : M configured) : Prop :=
Warn ZERO_DP1_WARNING ∈ trace run
∧ ∃ m o c d l, returns run (m, Some o, c, d, l).

(** A [configure] run whose returned model exposes the update hook of the
  returned optimizer without any attribute having been assigned on the
  model object. *)
Definition update_hook_without_rebinding (run : M configured) : Prop :=
∃ m o c d l, returns run (m, Some o, c, d, l)
             ∧ exposes_update_master_params m o
             ∧ Forall (λ ev, is_setattr ev = false) (trace run).

(** Events of the wrapper construction step: warnings and constructor
    calls only. *)
Definition wrapper_phase_event (ev : event) : Prop :=
  is_warning ev || is_wrapper_construction ev = true.

(** The value [configure_ddp] leaves in [self]. *)
Definition after_ddp (self : HybridParallelPlugin) : HybridParallelPlugin :=
  if use_ddp_of self
  then set_ddp_config_item self "find_unused_parameters" (VBool true)
  else self.

(** The plugin object a completed construction leaves for world size [w]
    and expert-parallel size [ep]. *)
Definition built_plugin `{Collaborators} (self : HybridParallelPlugin)
    (w ep : Z) (force : pyval) : MoeHybridParallelPlugin :=
  let mesh := {| mesh_shape := [w / ep; ep; 1] |} in
  {| base := set_shard_config_ep_group (after_ddp self) (get_group_along_axis mesh 1);
     use_ddp := use_ddp_of self;
     moe_dp_size := w / ep;
     ep_size := ep;
     moe_tp_size := 1;
     moe_pg_mesh := mesh;
     moe_dp_axis := 0;
     ep_axis := 1;
     moe_tp_axis := 2;
     moe_dp_group := get_group_along_axis mesh 0;
     ep_group := get_group_along_axis mesh 1;
     moe_tp_group := get_group_along_axis mesh 2;
     force_overlap_comm := force |}.

(** ** A concrete set of collaborators

  Used to run the embedding on explicit inputs.  Expert tensors are the
  ones with an even identity; every collaborator constructor succeeds and
  returns a wrapper object. *)
Module Demo.

Definition demo_is_moe (p : Tensor) : bool := Z.even (Z.pos p).

Definition demo_reinitialize (o : Optimizer) (m : Module) : exn + Optimizer :=
  inr {| optim_id := optim_id o;
         optim_is_wrapper := optim_is_wrapper o;
         optim_params :=
           List.filter (λ p, bool_decide (p ∈ module_parameters m)) (optim_params o) |}.

Definition demo_module (a : ModuleArgs) : exn + Module :=
  inr {| module_id := (module_id (ma_module a) + 100)%positive;
         module_is_wrapper := true;
         module_parameters := module_parameters (ma_module a);
         module_dict := ∅ |}.

Definition demo_wrapper (o : Optimizer) : exn + Optimizer :=
  inr {| optim_id := (optim_id o + 100)%positive;
         optim_is_wrapper := true;
         optim_params := optim_params o |}.

#[global] Instance collaborators : Collaborators :=
  {| is_moe_tensor := demo_is_moe;
     get_param_info := λ _, 1%positive;
     reinitialize_optimizer := demo_reinitialize;
     HybridParallelModule := demo_module;
     HybridParallelAMPOptimizer := λ a, demo_wrapper (aa_optimizer a);
     HybridParallelNaiveOptimizer := λ a, demo_wrapper (na_optimizer a);
     HybridParallelZeroOptimizer := λ a, demo_wrapper (zb_optimizer a);
     get_group_along_axis := λ _ axis, Z.to_pos (axis + 10) |}.

(** Base attributes: [dp_size], [pp_size], [zero_stage] and [zero_config]
    vary, the rest is fixed. *)
Definition plugin_base (dp pp stage : Z) (zc : kwargs) : HybridParallelPlugin :=
  {| dp_size := dp; pp_size := pp; zero_stage := stage;
     ddp_config := ∅;
     precision := "fp16";
     shard_config := {| shard_config_id := 1%positive; sc_ep_group := None |};
     dp_group := Some 1%positive; tp_group := Some 2%positive;
     pp_group := Some 3%positive; sp_group := None;
     custom_policy := 1%positive;
     enable_pipeline_parallelism := false;
     max_norm := VFloat (0 # 1);
     amp_config := ∅;
     zero_config := zc |}.

(** A base constructor that returns [plugin_base] without events. *)
Definition super_init (dp pp stage : Z) (zc : kwargs) : M HybridParallelPlugin :=
  mret (plugin_base dp pp stage zc).

(** The plugin [__init__] leaves for world size 8 and expert-parallel
    size [ep]. *)
Definition plugin (dp pp stage ep : Z) (zc : kwargs) (force : pyval)
  : MoeHybridParallelPlugin :=
  built_plugin (plugin_base dp pp stage zc) 8 ep force.

(** A plain model with parameters 1..4 and a plain optimizer over them. *)
Definition raw_model : Module :=
  {| module_id := 1%positive; module_is_wrapper := false;
     module_parameters := [1; 2; 3; 4]%positive; module_dict := ∅ |}.

Definition wrapped_model : Module :=
  {| module_id := 2%positive; module_is_wrapper := true;
     module_parameters := [1; 2; 3; 4]%positive; module_dict := ∅ |}.

Definition raw_optimizer : Optimizer :=
  {| optim_id := 5%positive; optim_is_wrapper := false;
     optim_params := [1; 2; 3; 4]%positive |}.

Definition wrapped_optimizer : Optimizer :=
  {| optim_id := 6%positive; optim_is_wrapper := true;
     optim_params := [1; 2; 3; 4]%positive |}.

(** Constructor arguments of the sharded optimizer over [wrapped_model],
    with the data-parallel group [dp] and the expert group 10. *)
Definition zero_args (dp : option ProcessGroup) (force overlap : pyval) : ZeroArgs :=
  {| za_optimizer := raw_optimizer;
     za_model := wrapped_model;
     za_use_pipeline := false;
     za_force_overlap_comm := force;
     za_dp_process_group := dp;
     za_tp_process_group := Some 2%positive;
     za_pp_process_group := Some 3%positive;
     za_moe_dp_group := 10%positive;
     za_param_info := 1%positive;
     za_kw := set_overlap_communication overlap ZeroKw_defaults |}.

(** What [demo_module] returns for [raw_model]. *)
Definition sharded_model : Module :=
  {| module_id := 101%positive; module_is_wrapper := true;
     module_parameters := [1; 2; 3; 4]%positive; module_dict := ∅ |}.

(** A [zero_config] that asks for overlapped communication. *)
Definition overlap_config : kwargs := {[ "overlap_communication" := VBool true ]}.

(** What [demo_wrapper] returns for [raw_optimizer]. *)
Definition built_optimizer : Optimizer :=
  {| optim_id := 105%positive; optim_is_wrapper := true;
     optim_params := [1; 2; 3; 4]%positive |}.

(** [model] with the update hook of [built_optimizer] assigned. *)
Definition hooked (model : Module) : Module :=
  setattr model "update_master_params"
    (MethodType (BoundMethod built_optimizer "update_master_params") (module_id model)).

End Demo.

(** ** get_checkpoint_io *)

Definition CheckpointIO : Type := positive.   (* a MoECheckpointIO object *)

(** The positional arguments of [MoECheckpointIO(...)], in call order. *)
Record CheckpointIOArgs : Type := mkCheckpointIOArgs {
  cio_dp_group : option ProcessGroup;
  cio_pp_group : option ProcessGroup;
  cio_tp_group : option ProcessGroup;
  cio_ep_group : ProcessGroup;
  cio_moe_dp_group : ProcessGroup;
  cio_zero_stage : Z
}.

(** Lines 140-142: the arguments read off [self]. *)
Definition get_checkpoint_io_args (self : MoeHybridParallelPlugin) : CheckpointIOArgs :=
  {| cio_dp_group := dp_group (base self);
     cio_pp_group := pp_group (base self);
     cio_tp_group := tp_group (base self);
     cio_ep_group := ep_group self;
     cio_moe_dp_group := moe_dp_group self;
     cio_zero_stage := zero_stage (base self) |}.

(** [MoeHybridParallelPlugin.get_checkpoint_io]; [MoECheckpointIO] is the
    constructor imported from [colossalai.checkpoint_io]. *)
Definition get_checkpoint_io
    (MoECheckpointIO : CheckpointIOArgs → exn + CheckpointIO)
    (self : MoeHybridParallelPlugin) : exn + CheckpointIO :=
  MoECheckpointIO (get_checkpoint_io_args self).

(** ** Further vocabulary *)

(** Calls that construct the sharded optimizer. *)
Definition is_zero_construction (ev : event) : bool :=
  match ev with
  | CallMoeZeroOptimizer _ _ | CallZeroOptimizerBase _ _ => true
  | _ => false
  end.

(** Calls that construct one of the unsharded optimizer wrappers. *)
Definition is_plain_construction (ev : event) : bool :=
  match ev with
  | CallAMPOptimizer _ _ | CallNaiveOptimizer _ _ => true
  | _ => false
  end.

Definition is_base_zero_call (ev : event) : bool :=
  match ev with
  | CallZeroOptimizerBase _ _ => true
  | _ => false
  end.

(** [model] with the update hook of [wrapped] assigned (line 208). *)
Definition with_update_hook (model : Module) (wrapped : Optimizer) : Module :=
  setattr model "update_master_params"
    (MethodType (BoundMethod wrapped "update_master_params") (module_id model)).

Definition is_amp_construction (ev : event) : bool :=
  match ev with
  | CallAMPOptimizer _ _ => true
  | _ => false
  end.

Definition is_naive_construction (ev : event) : bool :=
  match ev with
  | CallNaiveOptimizer _ _ => true
  | _ => false
  end.

(** The keyword argument of the sharded optimizer named [name], for the
    names of [zero_config_keys]. *)
Definition ZeroKw_field (name : string) (kw : ZeroKw) : option pyval :=
  if String.eqb name "initial_scale" then Some (initial_scale kw)
  else if String.eqb name "min_scale" then Some (min_scale kw)
  else if String.eqb name "growth_factor" then Some (growth_factor kw)
  else if String.eqb name "backoff_factor" then Some (backoff_factor kw)
  else if String.eqb name "growth_interval" then Some (growth_interval kw)
  else if String.eqb name "hysteresis" then Some (hysteresis kw)
  else if String.eqb name "max_scale" then Some (max_scale kw)
  else if String.eqb name "reduce_bucket_size" then Some (reduce_bucket_size kw)
  else if String.eqb name "communication_dtype" then Some (communication_dtype kw)
  else if String.eqb name "overlap_communication" then Some (overlap_communication kw)
  else if String.eqb name "partition_grad" then Some (partition_grad kw)
  else if String.eqb name "cpu_offload" then Some (cpu_offload kw)
  else if String.eqb name "forced_dtype" then Some (forced_dtype kw)
  else None.

(** Collaborators whose model wrapper constructor raises; everything else
    is as in [Demo]. *)
Module Failing.

Definition collaborators : Collaborators :=
  {| is_moe_tensor := Demo.demo_is_moe;
     get_param_info := λ _, 1%positive;
     reinitialize_optimizer := Demo.demo_reinitialize;
     HybridParallelModule := λ _, inl (Raised "HybridParallelModule");
     HybridParallelAMPOptimizer := λ a, Demo.demo_wrapper (aa_optimizer a);
     HybridParallelNaiveOptimizer := λ a, Demo.demo_wrapper (na_optimizer a);
     HybridParallelZeroOptimizer := λ a, Demo.demo_wrapper (zb_optimizer a);
     get_group_along_axis := λ _ axis, Z.to_pos (axis + 10) |}.

End Failing.

(** The keywords [bind_zero_kwargs] yields for [Demo.overlap_config], an
    empty [amp_config] and [max_norm = 0.0]. *)
Definition demo_bound_kw : ZeroKw :=
  {| initial_scale := VInt 65536;
     min_scale := VInt 1;
     growth_factor := VFloat (2 # 1);
     backoff_factor := VFloat (1 # 2);
     growth_interval := VInt 2000;
     hysteresis := VInt 2;
     max_scale := VInt 16777216;
     clip_grad_norm := VFloat (0 # 1);
     verbose := VBool true;
     reduce_bucket_size := VInt 1048576;
     communication_dtype := VNone;
     overlap_communication := VBool true;
     partition_grad := VBool false;
     cpu_offload := VBool false;
     forced_dtype := VNone |}.

(** A [zero_config] that repeats a keyword [configure] passes itself. *)
Definition demo_verbose_config : kwargs := {[ "verbose" := VBool false ]}.

(** * Properties *)

(** ** Runs *)

Section Runs.
Context {A B : Type}.
Implicit Types (m : M A) (f : A → M B).

Lemma bind_returns m f x :
  returns m x → m ≫= f = Run (trace m ++ trace (f x)) (outcome (f x)).
Proof. unfold returns, mbind, M_bind. intros ->. reflexivity. Qed.

Lemma bind_raises m f e :
  raises m e → m ≫= f = Run (trace m) (inl e).
Proof. unfold raises, mbind, M_bind. intros ->. reflexivity. Qed.

Lemma returns_bind_inv m f y :
  returns (m ≫= f) y → ∃ x, returns m x ∧ returns (f x) y.
Proof.
  unfold returns, mbind, M_bind.
  destruct (outcome m) as [e|x]; simpl; [discriminate|].
  intros Hy. exists x. split; [reflexivity | exact Hy].
Qed.

Lemma trace_bind_prefix m f :
  ∃ rest : list event, trace (m ≫= f) = trace m ++ rest.
Proof.
  unfold mbind, M_bind.
  destruct (outcome m) as [e|x]; simpl.
  - exists []. by rewrite app_nil_r.
  - by exists (trace (f x)).
Qed.

Lemma mret_bind (x : A) f : mret x ≫= f = f x.
Proof.
  unfold mbind, M_bind, mret, M_ret. simpl. by destruct (f x).
Qed.
End Runs.

Lemma returns_mret {A : Type} (x y : A) : returns (mret x) y ↔ x = y.
Proof. unfold returns, mret, M_ret. simpl. split; [by intros [= ->] | by intros ->]. Qed.

Lemma returns_mret_inv {A : Type} (x y : A) : returns (mret x) y → x = y.
Proof. apply returns_mret. Qed.

Lemma returns_not_raises {A : Type} (m : M A) (x : A) (e : exn) :
returns m x → raises m e → False.
Proof. unfold returns, raises. congruence. Qed.

Lemma returns_det {A : Type} (m : M A) (x y : A) :
returns m x → returns m y → x = y.
Proof. unfold returns. congruence. Qed.

(** ** The configuration check of the sharded optimizer *)

Section ZeroOptimizerFacts.
Context `{Collaborators}.

Lemma check_overlap_rejects (force overlap partition : pyval) :
  truthy force = false →
  truthy overlap || truthy partition = true →
  ∃ msg, check_overlap force overlap partition = raise (RuntimeError msg).
Proof.
  intros Hf Hreq. unfold check_overlap.
  rewrite truthy_py_or, Hf, Hreq. simpl. eauto.
Qed.

Lemma check_overlap_passes_forced (force overlap partition : pyval) :
  truthy force = true → check_overlap force overlap partition = mret tt.
Proof. intros Hf. unfold check_overlap. by rewrite Hf. Qed.

Lemma check_overlap_passes_unrequested (force overlap partition : pyval) :
  truthy overlap = false → truthy partition = false →
  check_overlap force overlap partition = mret tt.
Proof.
  intros Ho Hp. unfold check_overlap.
  rewrite truthy_py_or, Ho, Hp. simpl. by rewrite andb_false_r.
Qed.

(** The constructor runs the base constructor exactly when the check
    passes. *)
Lemma zero_optimizer_forced (a : ZeroArgs) :
  truthy (za_force_overlap_comm a) = true →
  MoeHybridParallelZeroOptimizer a
  = Run [Warn (WARN_STR +:+ " Please make sure of this.");
         CallZeroOptimizerBase (za_optimizer a) (za_model a)]
        (HybridParallelZeroOptimizer
           (zero_base_args a (VBool true)
              (pg_param_list_of is_moe_tensor (za_dp_process_group a)
                 (za_moe_dp_group a) (module_parameters (za_model a))))).
Proof.
  intros Hf. unfold MoeHybridParallelZeroOptimizer.
  rewrite check_overlap_passes_forced by done.
  unfold force_overlap. rewrite Hf. reflexivity.
Qed.

Lemma zero_optimizer_unforced (a : ZeroArgs) :
  truthy (za_force_overlap_comm a) = false →
  truthy (overlap_communication (za_kw a)) = false →
  truthy (partition_grad (za_kw a)) = false →
  MoeHybridParallelZeroOptimizer a
  = Run [CallZeroOptimizerBase (za_optimizer a) (za_model a)]
        (HybridParallelZeroOptimizer
           (zero_base_args a (overlap_communication (za_kw a))
              (pg_param_list_of is_moe_tensor (za_dp_process_group a)
                 (za_moe_dp_group a) (module_parameters (za_model a))))).
Proof.
  intros Hf Ho Hp. unfold MoeHybridParallelZeroOptimizer.
  rewrite check_overlap_passes_unrequested by done.
  unfold force_overlap. rewrite Hf. reflexivity.
Qed.

(** C1. Construction of the sharded optimizer: when [force_overlap_comm]
    is false and [overlap_communication] or [partition_grad] is true, the
    constructor raises a [RuntimeError] carrying the configuration
    message, before anything else happens.  When [force_overlap_comm] is
    true the check passes, one warning is emitted, and the base
    constructor is reached with [overlap_communication = True] whatever
    value was passed; the outcome is then the base constructor's. *)
Theorem overlap_check_rejects_or_forces (a : ZeroArgs) :
  (truthy (za_force_overlap_comm a) = false →
   truthy (overlap_communication (za_kw a)) || truthy (partition_grad (za_kw a)) = true →
   ∃ msg, MoeHybridParallelZeroOptimizer a = Run [] (inl (RuntimeError msg)))
  ∧ (truthy (za_force_overlap_comm a) = true →
     check_overlap (za_force_overlap_comm a) (overlap_communication (za_kw a))
                   (partition_grad (za_kw a)) = mret tt
     ∧ ∃ base_args,
         MoeHybridParallelZeroOptimizer a
         = Run [Warn (WARN_STR +:+ " Please make sure of this.");
                CallZeroOptimizerBase (za_optimizer a) (za_model a)]
               (HybridParallelZeroOptimizer base_args)
         ∧ overlap_communication (zb_kw base_args) = VBool true
         ∧ partition_grad (zb_kw base_args) = partition_grad (za_kw a)).
Proof.
  split.
  - intros Hf Hreq.
    destruct (check_overlap_rejects _ _ _ Hf Hreq) as [msg Hmsg].
    exists msg. unfold MoeHybridParallelZeroOptimizer. rewrite Hmsg.
    reflexivity.
  - intros Hf. split; [by apply check_overlap_passes_forced|].
    eexists. split; [by apply zero_optimizer_forced|]. split; reflexivity.
Qed.

End ZeroOptimizerFacts.

Lemma overlap_check_rejects_or_forces_witness :
(∃ msg, MoeHybridParallelZeroOptimizer
          (Demo.zero_args (Some 1%positive) (VBool false) (VBool true))
        = Run [] (inl (RuntimeError msg)))
∧ (∃ base_args,
     MoeHybridParallelZeroOptimizer
       (Demo.zero_args (Some 1%positive) (VBool true) (VBool false))
     = Run [Warn (WARN_STR +:+ " Please make sure of this.");
            CallZeroOptimizerBase Demo.raw_optimizer Demo.wrapped_model]
           (HybridParallelZeroOptimizer base_args)
     ∧ overlap_communication (zb_kw base_args) = VBool true).
Proof.
split.
- apply (proj1 (overlap_check_rejects_or_forces
                  (Demo.zero_args (Some 1%positive) (VBool false) (VBool true))));
    reflexivity.
- destruct (proj2 (overlap_check_rejects_or_forces
                     (Demo.zero_args (Some 1%positive) (VBool true) (VBool false)))
              eq_refl) as [_ [base_args [Hrun [Hoverlap _]]]].
  exists base_args. split; [exact Hrun | exact Hoverlap].
Defined.

(** ** The group assignment *)

Section Filter.
Context {A : Type} (f : A → bool).

Lemma filter_sublist_of (l : list A) : List.filter f l `sublist_of` l.
Proof.
  induction l as [|x l IH]; simpl.
  - constructor.
  - destruct (f x).
    + by apply sublist_skip.
    + by apply sublist_cons.
Qed.

Lemma filter_split_perm (l : list A) :
  List.filter (λ x, negb (f x)) l ++ List.filter f l ≡ₚ l.
Proof.
  induction l as [|x l IH]; simpl.
  - reflexivity.
  - destruct (f x); simpl.
    + rewrite <- Permutation_middle. by constructor.
    + by constructor.
Qed.

Lemma filter_Forall_true (l : list A) :
  Forall (λ x, f x = true) (List.filter f l).
Proof.
  induction l as [|x l IH]; simpl; [constructor|].
  destruct (f x) eqn:E; [by constructor | exact IH].
Qed.

Lemma filter_Forall_false (l : list A) :
  Forall (λ x, f x = false) (List.filter (λ x, negb (f x)) l).
Proof.
  induction l as [|x l IH]; simpl; [constructor|].
  destruct (f x) eqn:E; simpl; [exact IH | by constructor].
Qed.
End Filter.

(** With distinct handles the dict has both entries. *)
Lemma pg_param_list_lookup (is_moe : Tensor → bool) (dp : option ProcessGroup)
  (moe : ProcessGroup) (parameters : list Tensor) :
dp ≠ Some moe →
pg_param_list_of is_moe dp moe parameters !! dp
  = Some (List.filter (λ p, negb (is_moe p)) parameters)
∧ pg_param_list_of is_moe dp moe parameters !! Some moe
  = Some (List.filter is_moe parameters)
∧ size (pg_param_list_of is_moe dp moe parameters) = 2%nat.
Proof.
intros Hne. unfold pg_param_list_of. repeat split.
- rewrite lookup_insert_ne by congruence. by rewrite lookup_insert_eq.
- by rewrite lookup_insert_eq.
- rewrite map_size_insert_None.
  + by rewrite map_size_insert_None, map_size_empty by apply lookup_empty.
  + rewrite lookup_insert_ne by congruence. apply lookup_empty.
Qed.

(** With one handle for both groups the expert entry replaces the regular
  one. *)
Lemma pg_param_list_same_handle (is_moe : Tensor → bool) (g : ProcessGroup)
  (parameters : list Tensor) :
pg_param_list_of is_moe (Some g) g parameters
= {[ Some g := List.filter is_moe parameters ]}.
Proof. unfold pg_param_list_of. by rewrite insert_insert_eq, insert_empty. Qed.

(** C2 (as amended). When the data-parallel handle and the expert handle
  are different dict keys, the group assignment holds exactly two lists:
  under the data-parallel handle the parameters the classifier rejects,
  under the expert handle those it accepts.  The two lists are disjoint,
  together they are a rearrangement of the input (so without repetition
  when the input has none), and each keeps the input order. *)
Theorem pg_param_list_partition (is_moe : Tensor → bool) (dp : option ProcessGroup)
  (moe : ProcessGroup) (parameters : list Tensor) :
dp ≠ Some moe →
stable_two_way_partition is_moe dp moe parameters
  (pg_param_list_of is_moe dp moe parameters).
Proof.
intros Hne.
destruct (pg_param_list_lookup is_moe dp moe parameters Hne) as (Hdp & Hmoe & Hsize).
exists (List.filter (λ p, negb (is_moe p)) parameters), (List.filter is_moe parameters).
split; [exact Hdp|]. split; [exact Hmoe|]. split; [exact Hsize|].
split; [apply filter_Forall_false|]. split; [apply filter_Forall_true|].
split.
- intros p Hreg Hexp.
  pose proof (filter_Forall_false is_moe parameters) as Hf.
  pose proof (filter_Forall_true is_moe parameters) as Ht.
  rewrite Forall_forall in Hf, Ht.
  specialize (Hf p Hreg). specialize (Ht p Hexp). congruence.
- split; [apply filter_split_perm|].
  split; [|split; apply filter_sublist_of].
  intros Hnd. by rewrite filter_split_perm.
Qed.

Lemma pg_param_list_partition_witness :
stable_two_way_partition Demo.demo_is_moe (Some 1%positive) 10%positive
  [1; 2; 3; 4]%positive
  (pg_param_list_of Demo.demo_is_moe (Some 1%positive) 10%positive
     [1; 2; 3; 4]%positive).
Proof. apply pg_param_list_partition. discriminate. Defined.

(** C2 (as stated) fails when both groups are the same handle: the dict then
  has a single entry, the expert list, and the regular parameters are
  in no list. *)
Lemma pg_param_list_same_handle_counterexample :
¬ stable_two_way_partition Demo.demo_is_moe (Some 7%positive) 7%positive
    [1; 2]%positive
    (pg_param_list_of Demo.demo_is_moe (Some 7%positive) 7%positive
       [1; 2]%positive).
Proof.
intros (regular & expert & _ & _ & Hsize & _).
rewrite pg_param_list_same_handle, map_size_singleton in Hsize.
discriminate.
Qed.

(** ** Construction of the plugin *)

Lemma moe_axis_sizes_nonzero (w ep : Z) :
  ep ≠ 0 → moe_axis_sizes w ep 1 = mret (w / ep, ep, 1).
Proof.
  intros Hep. unfold moe_axis_sizes, floordiv.
  rewrite Z.mul_1_r. destruct (Z.eqb_spec ep 0) as [->|_]; [done|].
  reflexivity.
Qed.

Lemma moe_axis_sizes_zero_divisor (w ep tp : Z) :
  ep * tp = 0 → moe_axis_sizes w ep tp = Run [] (inl ZeroDivisionError).
Proof.
  intros Hz. unfold moe_axis_sizes, floordiv. rewrite Hz. reflexivity.
Qed.

(** C3 (as stated) fails on world size 8 with expert-parallel size 3: the
    sizes handed to the mesh are 2, 3 and 1. *)
Lemma moe_axis_product_counterexample :
  ¬ axis_product_is_world_size 8 3 1.
Proof.
  intros Hprod. specialize (Hprod 2 3 1 eq_refl). discriminate Hprod.
Qed.

(** C3 (as amended). With a nonzero expert-parallel size and
    [moe_tp_size = 1] the three axis sizes are computed, their product is
    the world size rounded down to a multiple of [ep_size] (the world size
    minus its remainder), and it equals the world size exactly when
    [ep_size] divides the world size. *)
Theorem moe_axis_product (w ep : Z) :
  ep ≠ 0 →
  ∃ d, moe_axis_sizes w ep 1 = mret (d, ep, 1)
       ∧ d * ep * 1 = w - w mod ep
       ∧ (d * ep * 1 = w ↔ (ep | w)).
Proof.
  intros Hep. exists (w / ep).
  split; [by apply moe_axis_sizes_nonzero|].
  pose proof (Z_div_mod_eq_full w ep) as Hdiv.
  split; [lia|].
  rewrite <- (Z.mod_divide w ep) by done. lia.
Qed.

Lemma moe_axis_product_witness :
  ∃ d, moe_axis_sizes 8 4 1 = mret (d, 4, 1)
       ∧ d * 4 * 1 = 8 - 8 mod 4
       ∧ (d * 4 * 1 = 8 ↔ (4 | 8)).
Proof. apply (moe_axis_product 8 4). discriminate. Defined.

Section PluginFacts.
Context `{Collaborators}.

Lemma configure_ddp_trace_warnings (self : HybridParallelPlugin) :
  Forall (λ ev, is_mesh_event ev = false) (trace (configure_ddp self)).
Proof.
  unfold configure_ddp. destruct (use_ddp_of self); simpl; repeat constructor.
Qed.

Lemma use_ddp_of_true (self : HybridParallelPlugin) :
  use_ddp_of self = true ↔ 1 < dp_size self ∧ pp_size self = 1 ∧ zero_stage self = 0.
Proof.
  unfold use_ddp_of. rewrite !andb_true_iff, Z.ltb_lt, !Z.eqb_eq. tauto.
Qed.

(** With [moe_tp_size ≠ 1] the body stops right after the DDP step. *)
Lemma init_body_not_implemented (self : HybridParallelPlugin) (w ep tp : Z)
    (force : pyval) :
  tp ≠ 1 →
  MoeHybridParallelPlugin_init_body self w ep tp force
  = Run (trace (configure_ddp self)) (inl NotImplementedError).
Proof.
  intros Htp. unfold MoeHybridParallelPlugin_init_body, configure_ddp.
  destruct (Z.eqb_spec tp 1) as [->|_]; [done|].
  destruct (use_ddp_of self); reflexivity.
Qed.

Lemma mesh_build_accepts (w : Z) (sizes : list Z) :
  prod_sizes sizes = w → ProcessGroupMesh_build w sizes = inr {| mesh_shape := sizes |}.
Proof.
  intros Hprod. unfold ProcessGroupMesh_build.
  by destruct (Z.eqb_spec (prod_sizes sizes) w).
Qed.

Lemma mesh_build_rejects (w : Z) (sizes : list Z) :
  prod_sizes sizes ≠ w →
  ∃ msg, ProcessGroupMesh_build w sizes = inl (ConfigurationError msg).
Proof.
  intros Hprod. unfold ProcessGroupMesh_build.
  destruct (Z.eqb_spec (prod_sizes sizes) w); [done|eauto].
Qed.

Lemma prod_sizes_3 (a b c : Z) : prod_sizes [a; b; c] = a * b * c.
Proof. unfold prod_sizes. simpl. lia. Qed.

Arguments ProcessGroupMesh_build : simpl never.

Lemma configure_ddp_returns (self : HybridParallelPlugin) :
  returns (configure_ddp self) (after_ddp self).
Proof.
  unfold returns, configure_ddp, after_ddp. by destruct (use_ddp_of self).
Qed.

Lemma configure_ddp_trace (self : HybridParallelPlugin) :
  trace (configure_ddp self) = if use_ddp_of self then [Warn DDP_WARNING] else [].
Proof. unfold configure_ddp. by destruct (use_ddp_of self). Qed.

(** The three ways the body ends when [moe_tp_size = 1]. *)
Lemma init_body_zero_division (self : HybridParallelPlugin) (w : Z) (force : pyval) :
  MoeHybridParallelPlugin_init_body self w 0 1 force
  = Run (trace (configure_ddp self)) (inl ZeroDivisionError).
Proof.
  unfold MoeHybridParallelPlugin_init_body, configure_ddp.
  destruct (use_ddp_of self); reflexivity.
Qed.

Lemma init_body_mesh_rejects (self : HybridParallelPlugin) (w ep : Z) (force : pyval) :
  ep ≠ 0 → w / ep * ep ≠ w →
  ∃ msg, MoeHybridParallelPlugin_init_body self w ep 1 force
         = Run (trace (configure_ddp self) ++ [BuildMesh [w / ep; ep; 1]])
               (inl (ConfigurationError msg)).
Proof.
  intros Hep Hprod.
  destruct (mesh_build_rejects w [w / ep; ep; 1]) as [msg Hmsg].
  { rewrite prod_sizes_3. lia. }
  exists msg.
  unfold MoeHybridParallelPlugin_init_body.
  rewrite (bind_returns _ _ _ (configure_ddp_returns self)). simpl.
  rewrite moe_axis_sizes_nonzero by done. simpl.
  rewrite Hmsg. reflexivity.
Qed.

Lemma init_body_success (self : HybridParallelPlugin) (w ep : Z) (force : pyval) :
  ep ≠ 0 → w / ep * ep = w →
  MoeHybridParallelPlugin_init_body self w ep 1 force
  = Run (trace (configure_ddp self)
         ++ [BuildMesh [w / ep; ep; 1]; GetGroupAlongAxis 0; GetGroupAlongAxis 1;
             GetGroupAlongAxis 2; LoggerInfo ep (w / ep) 1])
        (inr (built_plugin self w ep force)).
Proof.
  intros Hep Hprod.
  unfold MoeHybridParallelPlugin_init_body.
  rewrite (bind_returns _ _ _ (configure_ddp_returns self)). simpl.
  rewrite moe_axis_sizes_nonzero by done. simpl.
  rewrite mesh_build_accepts by (rewrite prod_sizes_3; lia).
  reflexivity.
Qed.

(** Whether the body completes depends on the world size and the two MoE
    sizes only. *)
Lemma init_body_returns_iff (self : HybridParallelPlugin) (w ep tp : Z) (force : pyval) :
  (∃ plugin, returns (MoeHybridParallelPlugin_init_body self w ep tp force) plugin)
  ↔ tp = 1 ∧ ep ≠ 0 ∧ w / ep * ep = w.
Proof.
  split.
  - intros [plugin Hret]. unfold returns in Hret.
    destruct (decide (tp = 1)) as [->|Htp].
    + split; [done|].
      destruct (decide (ep = 0)) as [->|Hep].
      { rewrite init_body_zero_division in Hret. discriminate. }
      split; [done|].
      destruct (decide (w / ep * ep = w)) as [Hprod|Hprod]; [done|].
      destruct (init_body_mesh_rejects self w ep force Hep Hprod) as [msg Hmsg].
      rewrite Hmsg in Hret. discriminate.
    + rewrite init_body_not_implemented in Hret by done. discriminate.
  - intros (-> & Hep & Hprod). eexists. unfold returns.
    by rewrite init_body_success.
Qed.

Lemma init_body_returns_inv (self : HybridParallelPlugin) (w ep tp : Z) (force : pyval)
    (plugin : MoeHybridParallelPlugin) :
  returns (MoeHybridParallelPlugin_init_body self w ep tp force) plugin →
  tp = 1 ∧ ep ≠ 0 ∧ w / ep * ep = w ∧ plugin = built_plugin self w ep force.
Proof.
  intros Hret.
  destruct (proj1 (init_body_returns_iff self w ep tp force) (ex_intro _ _ Hret))
    as (-> & Hep & Hprod).
  repeat split; try done.
  unfold returns in Hret. rewrite init_body_success in Hret by done.
  simpl in Hret. congruence.
Qed.

(** A construction that completes has axis sizes
    whose product is the world size, because the mesh (as the specification
    describes it) rejects any other sizes. *)
Lemma init_returns_product (super_init : M HybridParallelPlugin) (w ep tp : Z)
    (force : pyval) (plugin : MoeHybridParallelPlugin) :
  returns (MoeHybridParallelPlugin_init super_init w ep tp force) plugin →
  moe_dp_size plugin * ep_size plugin * moe_tp_size plugin = w.
Proof.
  unfold MoeHybridParallelPlugin_init. intros Hret.
  apply returns_bind_inv in Hret as (self & _ & Hbody).
  apply init_body_returns_inv in Hbody as (_ & _ & Hprod & ->).
  simpl. lia.
Qed.

(** C4. With a MoE tensor-parallel size other than 1, construction never
    completes, whatever the other arguments and the world size are; once
    the base constructor has returned, the exception is
    [NotImplementedError] and this constructor has done nothing but the
    DDP step: no mesh is built and no group is asked for. *)
Theorem moe_tp_size_not_implemented (super_init : M HybridParallelPlugin)
    (w ep tp : Z) (force : pyval) :
  tp ≠ 1 →
  fails (MoeHybridParallelPlugin_init super_init w ep tp force)
  ∧ ∀ self, returns super_init self →
      raises (MoeHybridParallelPlugin_init super_init w ep tp force) NotImplementedError
      ∧ trace (MoeHybridParallelPlugin_init super_init w ep tp force)
        = trace super_init ++ trace (configure_ddp self)
      ∧ Forall (λ ev, is_mesh_event ev = false) (trace (configure_ddp self)).
Proof.
  intros Htp. unfold MoeHybridParallelPlugin_init, fails, raises. split.
  - destruct (outcome super_init) as [e|self] eqn:Hsuper.
    + exists e. by rewrite (bind_raises _ _ e Hsuper).
    + exists NotImplementedError.
      rewrite (bind_returns _ _ self Hsuper), init_body_not_implemented by done.
      reflexivity.
  - intros self Hsuper.
    rewrite (bind_returns _ _ self Hsuper), init_body_not_implemented by done.
    simpl. repeat split. apply configure_ddp_trace_warnings.
Qed.

Lemma init_body_trace_prefix (self : HybridParallelPlugin) (w ep tp : Z)
    (force : pyval) :
  ∃ rest : list event,
    trace (MoeHybridParallelPlugin_init_body self w ep tp force)
    = trace (configure_ddp self) ++ rest.
Proof.
  destruct (decide (tp = 1)) as [->|Htp].
  - destruct (decide (ep = 0)) as [->|Hep].
    + exists []. by rewrite init_body_zero_division, app_nil_r.
    + destruct (decide (w / ep * ep = w)) as [Hprod|Hprod].
      * eexists. by rewrite init_body_success.
      * destruct (init_body_mesh_rejects self w ep force Hep Hprod) as [msg ->].
        by eexists.
  - exists []. by rewrite init_body_not_implemented, app_nil_r.
Qed.

Lemma init_returns_inv (super_init : M HybridParallelPlugin) (w ep tp : Z)
    (force : pyval) (self : HybridParallelPlugin) (plugin : MoeHybridParallelPlugin) :
  returns super_init self →
  returns (MoeHybridParallelPlugin_init super_init w ep tp force) plugin →
  plugin = built_plugin self w ep force.
Proof.
  unfold MoeHybridParallelPlugin_init. intros Hsuper Hret.
  apply returns_bind_inv in Hret as (self' & Hsuper' & Hbody).
  rewrite (returns_det _ _ _ Hsuper Hsuper').
  by apply init_body_returns_inv in Hbody as (_ & _ & _ & ->).
Qed.

Lemma init_returns_iff (super_init : M HybridParallelPlugin) (w ep tp : Z)
    (force : pyval) (self : HybridParallelPlugin) :
  returns super_init self →
  (∃ plugin, returns (MoeHybridParallelPlugin_init super_init w ep tp force) plugin)
  ↔ tp = 1 ∧ ep ≠ 0 ∧ w / ep * ep = w.
Proof.
  intros Hsuper. rewrite <- (init_body_returns_iff self w ep tp force).
  unfold MoeHybridParallelPlugin_init, returns.
  rewrite (bind_returns _ _ self Hsuper). reflexivity.
Qed.

Lemma divide_div_mul (w ep : Z) : ep ≠ 0 → (ep | w) → w / ep * ep = w.
Proof. intros Hep [k ->]. by rewrite Z.div_mul. Qed.

(** Outside plain DDP mode the body of the constructor emits no warning. *)
Lemma init_body_no_warning (self : HybridParallelPlugin) (w ep tp : Z) (force : pyval) :
  use_ddp_of self = false →
  Forall (λ ev, is_warning ev = false)
         (trace (MoeHybridParallelPlugin_init_body self w ep tp force)).
Proof.
  intros Hddp.
  assert (Hstep : trace (configure_ddp self) = []) by (by rewrite configure_ddp_trace, Hddp).
  destruct (decide (tp = 1)) as [->|Htp].
  - destruct (decide (ep = 0)) as [->|Hep].
    + rewrite init_body_zero_division. simpl. rewrite Hstep. constructor.
    + destruct (decide (w / ep * ep = w)) as [Hprod|Hprod].
      * rewrite init_body_success by done. simpl. rewrite Hstep. repeat constructor.
      * destruct (init_body_mesh_rejects self w ep force Hep Hprod) as [msg ->].
        simpl. rewrite Hstep. repeat constructor.
  - rewrite init_body_not_implemented by done. simpl. rewrite Hstep. constructor.
Qed.

(** C7. When the base constructor has returned with [dp_size > 1],
    [pp_size = 1] and [zero_stage = 0] (plain DDP mode), the DDP step does
    not raise: it emits one warning and sets
    [ddp_config["find_unused_parameters"]] to [True].  Construction then
    does not fail: under the constructor's other preconditions
    ([moe_tp_size = 1], [ep_size] nonzero and dividing the world size) it
    completes, the warning having been emitted and the flag being [True] in
    the plugin's [ddp_config]; and any construction that completes carries
    that setting.  For every other combination of the three sizes the step
    emits nothing, the constructor emits no warning at all, construction
    completes under the same preconditions, and [ddp_config] is left as the
    base constructor set it.  Whether construction completes does not
    depend on the base attributes. *)
Theorem ddp_find_unused_parameters (super_init : M HybridParallelPlugin)
    (self : HybridParallelPlugin) (w ep tp : Z) (force : pyval) :
  returns super_init self →
  (1 < dp_size self ∧ pp_size self = 1 ∧ zero_stage self = 0 →
     configure_ddp self
     = Run [Warn DDP_WARNING]
           (inr (set_ddp_config_item self "find_unused_parameters" (VBool true)))
     ∧ (tp = 1 → ep ≠ 0 → (ep | w) →
        ddp_tolerated (MoeHybridParallelPlugin_init super_init w ep tp force))
     ∧ ∀ plugin,
         returns (MoeHybridParallelPlugin_init super_init w ep tp force) plugin →
         use_ddp plugin = true
         ∧ ddp_config (base plugin)
           = <["find_unused_parameters" := VBool true]> (ddp_config self))
  ∧ (¬ (1 < dp_size self ∧ pp_size self = 1 ∧ zero_stage self = 0) →
     configure_ddp self = Run [] (inr self)
     ∧ (tp = 1 → ep ≠ 0 → (ep | w) →
        ∃ plugin, returns (MoeHybridParallelPlugin_init super_init w ep tp force) plugin)
     ∧ (∃ rest : list event,
          trace (MoeHybridParallelPlugin_init super_init w ep tp force)
          = trace super_init ++ rest
          ∧ Forall (λ ev, is_warning ev = false) rest)
     ∧ ∀ plugin,
         returns (MoeHybridParallelPlugin_init super_init w ep tp force) plugin →
         use_ddp plugin = false ∧ ddp_config (base plugin) = ddp_config self)
  ∧ (∃ rest : list event,
       trace (MoeHybridParallelPlugin_init super_init w ep tp force)
       = trace super_init ++ trace (configure_ddp self) ++ rest)
  ∧ (∀ (super_init' : M HybridParallelPlugin) (self' : HybridParallelPlugin),
       returns super_init' self' →
       (∃ plugin, returns (MoeHybridParallelPlugin_init super_init w ep tp force) plugin)
       ↔ (∃ plugin, returns (MoeHybridParallelPlugin_init super_init' w ep tp force) plugin)).
Proof.
  intros Hsuper.
  assert (Hbuilt : ∀ plugin,
    returns (MoeHybridParallelPlugin_init super_init w ep tp force) plugin →
    use_ddp plugin = use_ddp_of self
    ∧ ddp_config (base plugin) = ddp_config (after_ddp self)).
  { intros plugin Hret. by rewrite (init_returns_inv _ _ _ _ _ _ _ Hsuper Hret). }
  assert (Hcompletes : tp = 1 → ep ≠ 0 → (ep | w) →
    MoeHybridParallelPlugin_init super_init w ep tp force
    = Run (trace super_init ++ trace (configure_ddp self)
           ++ [BuildMesh [w / ep; ep; 1]; GetGroupAlongAxis 0; GetGroupAlongAxis 1;
               GetGroupAlongAxis 2; LoggerInfo ep (w / ep) 1])
          (inr (built_plugin self w ep force))).
  { intros -> Hep Hdiv. unfold MoeHybridParallelPlugin_init.
    rewrite (bind_returns _ _ self Hsuper).
    by rewrite init_body_success by (by try apply divide_div_mul). }
  split; [|split; [|split]].
  - intros Hddp%use_ddp_of_true. split; [|split].
    + unfold configure_ddp. by rewrite Hddp.
    + intros Htp Hep Hdiv. exists (built_plugin self w ep force).
      rewrite (Hcompletes Htp Hep Hdiv). split; [reflexivity|]. split.
      * simpl. rewrite configure_ddp_trace, Hddp.
        apply elem_of_app. right. apply elem_of_cons. by left.
      * simpl. unfold after_ddp. rewrite Hddp. simpl. by rewrite lookup_insert_eq.
    + intros plugin [Huse Hcfg]%Hbuilt.
      rewrite Huse, Hcfg. unfold after_ddp. by rewrite Hddp.
  - intros Hddp. rewrite <- use_ddp_of_true in Hddp.
    apply not_true_is_false in Hddp. split; [|split; [|split]].
    + unfold configure_ddp. by rewrite Hddp.
    + intros Htp Hep Hdiv. exists (built_plugin self w ep force).
      by rewrite (Hcompletes Htp Hep Hdiv).
    + unfold MoeHybridParallelPlugin_init.
      rewrite (bind_returns _ _ self Hsuper). simpl.
      eexists. split; [reflexivity|]. by apply init_body_no_warning.
    + intros plugin [Huse Hcfg]%Hbuilt.
      rewrite Huse, Hcfg. unfold after_ddp. by rewrite Hddp.
  - unfold MoeHybridParallelPlugin_init.
    rewrite (bind_returns _ _ self Hsuper). simpl.
    destruct (init_body_trace_prefix self w ep tp force) as [rest Hrest].
    exists rest. by rewrite Hrest.
  - intros super_init' self' Hsuper'.
    rewrite (init_returns_iff _ _ _ _ _ self Hsuper).
    by rewrite (init_returns_iff _ _ _ _ _ self' Hsuper').
Qed.

End PluginFacts.

Lemma moe_tp_size_not_implemented_witness :
  raises (MoeHybridParallelPlugin_init (Demo.super_init 2 1 0 ∅) 8 4 2 (VBool false))
         NotImplementedError
  ∧ trace (MoeHybridParallelPlugin_init (Demo.super_init 2 1 0 ∅) 8 4 2 (VBool false))
    = [Warn DDP_WARNING].
Proof.
  destruct (moe_tp_size_not_implemented (Demo.super_init 2 1 0 ∅) 8 4 2 (VBool false))
    as [_ Hbody]; [discriminate|].
  destruct (Hbody (Demo.plugin_base 2 1 0 ∅) eq_refl) as (Hraise & Htrace & _).
  split; [exact Hraise | exact Htrace].
Defined.

Lemma ddp_find_unused_parameters_witness :
  ddp_tolerated
    (MoeHybridParallelPlugin_init (Demo.super_init 2 1 0 ∅) 8 4 1 (VBool false))
  ∧ configure_ddp (Demo.plugin_base 1 1 0 ∅) = Run [] (inr (Demo.plugin_base 1 1 0 ∅)).
Proof.
  split.
  - destruct (ddp_find_unused_parameters (Demo.super_init 2 1 0 ∅)
                (Demo.plugin_base 2 1 0 ∅) 8 4 1 (VBool false) eq_refl) as [Hddp _].
    destruct Hddp as (_ & Hcompletes & _); [simpl; lia|].
    apply Hcompletes; [reflexivity | discriminate | by exists 2].
  - destruct (ddp_find_unused_parameters (Demo.super_init 1 1 0 ∅)
                (Demo.plugin_base 1 1 0 ∅) 8 4 1 (VBool false) eq_refl)
      as (_ & Hplain & _).
    apply Hplain. simpl. lia.
Defined.

(** ** configure *)

Section TraceFacts.
Context {A B : Type}.
Implicit Types (m : M A) (f : A → M B) (P : event → Prop).

Lemma Forall_trace_bind P m f :
  Forall P (trace m) → (∀ x, Forall P (trace (f x))) →
  Forall P (trace (m ≫= f)).
Proof.
  intros Hm Hf. unfold mbind, M_bind.
  destruct (outcome m) as [e|x]; simpl; [exact Hm|].
  apply Forall_app. split; [exact Hm | apply Hf].
Qed.

Lemma raises_bind_l m f e : raises m e → raises (m ≫= f) e.
Proof. intros Hm. unfold raises. by rewrite (bind_raises _ _ _ Hm). Qed.

Lemma returns_bind m f x y : returns m x → returns (f x) y → returns (m ≫= f) y.
Proof. intros Hm Hf. unfold returns. by rewrite (bind_returns _ _ _ Hm). Qed.

Lemma raises_bind_r m f x e : returns m x → raises (f x) e → raises (m ≫= f) e.
Proof. intros Hm Hf. unfold raises. by rewrite (bind_returns _ _ _ Hm). Qed.

Lemma trace_bind_returns m f x :
  returns m x → trace (m ≫= f) = trace m ++ trace (f x).
Proof. intros Hm. by rewrite (bind_returns _ _ _ Hm). Qed.
End TraceFacts.

Section ConfigureFacts.
Context `{Collaborators}.
Implicit Types (self : MoeHybridParallelPlugin) (model wm : Module)
  (raw wrapped : Optimizer) (optimizer : option Optimizer)
  (c : option Callable) (d : option DataLoader) (l : option LRScheduler).

Lemma wrap_model_trace self model :
  trace (wrap_model self model)
  = if module_is_wrapper model then [] else [CallHybridParallelModule model].
Proof. unfold wrap_model. by destruct (module_is_wrapper model). Qed.

Lemma wrap_model_wrapper self model :
  module_is_wrapper model = true → wrap_model self model = mret model.
Proof. intros Hw. unfold wrap_model. by rewrite Hw. Qed.

Lemma reinitialize_if_ep_trace self raw wm :
  trace (reinitialize_if_ep self raw wm)
  = if 1 <? ep_size self then [CallReinitializeOptimizer raw wm] else [].
Proof. unfold reinitialize_if_ep. by destruct (1 <? ep_size self). Qed.

Lemma inject_returns wm wrapped :
  inject_update_master_params wm wrapped
  = Run [SetAttr wm "update_master_params"]
        (inr (setattr wm "update_master_params"
                (MethodType (BoundMethod wrapped "update_master_params")
                            (module_id wm)))).
Proof. reflexivity. Qed.

Lemma bind_zero_kwargs_trace (max_norm : pyval) (zc ac : kwargs) :
  trace (bind_zero_kwargs max_norm zc ac) = [].
Proof.
  unfold bind_zero_kwargs.
  destruct (negb (bool_decide (dom zc ## dom ac))); [done|].
  destruct (negb (bool_decide (dom zc ∪ dom ac ⊆ list_to_set zero_config_keys)));
    done.
Qed.

Lemma zero_optimizer_trace (a : ZeroArgs) :
  Forall wrapper_phase_event (trace (MoeHybridParallelZeroOptimizer a)).
Proof.
  unfold MoeHybridParallelZeroOptimizer, check_overlap, force_overlap.
  destruct (negb (truthy (za_force_overlap_comm a))
            && truthy (py_or (overlap_communication (za_kw a)) (partition_grad (za_kw a))));
    simpl; [constructor|].
  destruct (truthy (za_force_overlap_comm a)); simpl; repeat constructor.
Qed.

Lemma build_zero_optimizer_trace self raw wm (pinfo : ParamInfo) :
  Forall wrapper_phase_event (trace (build_zero_optimizer self raw wm pinfo)).
Proof.
  unfold build_zero_optimizer, call_zero_optimizer.
  apply Forall_trace_bind.
  { destruct (negb _); simpl; repeat constructor. }
  intros _. apply Forall_trace_bind; [repeat constructor|].
  intros _. apply Forall_trace_bind.
  { rewrite bind_zero_kwargs_trace. constructor. }
  intros kw. apply zero_optimizer_trace.
Qed.

Lemma build_optimizer_wrapper_trace self raw wm (pinfo : ParamInfo) :
  Forall wrapper_phase_event (trace (build_optimizer_wrapper self raw wm pinfo)).
Proof.
  unfold build_optimizer_wrapper.
  destruct (zero_stage (base self) =? 0).
  - destruct (is_half_precision _); simpl; repeat constructor.
  - apply build_zero_optimizer_trace.
Qed.

(** The two shapes of [configure]. *)
Lemma configure_raw self model raw c d l :
  optim_is_wrapper raw = false →
  configure self model (Some raw) c d l
  = wm ← wrap_model self model;
    raw' ← reinitialize_if_ep self raw wm;
    wrapped ← build_optimizer_wrapper self raw' wm (get_param_info (Some raw));
    wm2 ← inject_update_master_params wm wrapped;
    mret (wm2, Some wrapped, c, d, l).
Proof. intros Hraw. unfold configure. by rewrite Hraw. Qed.

Lemma configure_passthrough self model optimizer c d l :
  (optimizer = None ∨ ∃ o, optimizer = Some o ∧ optim_is_wrapper o = true) →
  configure self model optimizer c d l
  = wm ← wrap_model self model; mret (wm, optimizer, c, d, l).
Proof.
  intros [->|(o & -> & Hw)]; unfold configure; [done|]. by rewrite Hw.
Qed.

End ConfigureFacts.

Section BindRet.
Context {A B : Type}.

Lemma trace_bind_mret (m : M A) (g : A → B) :
  trace (m ≫= λ x, mret (g x)) = trace m.
Proof.
  unfold mbind, M_bind. destruct (outcome m); simpl; [done|].
  by rewrite app_nil_r.
Qed.

Lemma returns_bind_mret (m : M A) (g : A → B) (y : B) :
  returns (m ≫= λ x, mret (g x)) y ↔ ∃ x, returns m x ∧ y = g x.
Proof.
  split.
  - intros (x & Hm & Hy)%returns_bind_inv. exists x. split; [done|].
    apply returns_mret_inv in Hy. by symmetry.
  - intros (x & Hm & ->). by apply (returns_bind _ _ x).
Qed.
End BindRet.

Section ConfigureClaims.
Context `{Collaborators}.
Implicit Types (self : MoeHybridParallelPlugin) (model wm : Module)
  (raw wrapped : Optimizer) (optimizer : option Optimizer)
  (c : option Callable) (d : option DataLoader) (l : option LRScheduler).

(** The model object [configure] returns for a plain optimizer. *)
Lemma configure_raw_returns_inv self model raw c d l
    (res : configured) :
  optim_is_wrapper raw = false →
  returns (configure self model (Some raw) c d l) res →
  ∃ wm raw' wrapped,
    returns (wrap_model self model) wm
    ∧ returns (reinitialize_if_ep self raw wm) raw'
    ∧ returns (build_optimizer_wrapper self raw' wm (get_param_info (Some raw))) wrapped
    ∧ res = (setattr wm "update_master_params"
               (MethodType (BoundMethod wrapped "update_master_params") (module_id wm)),
             Some wrapped, c, d, l)
    ∧ trace (configure self model (Some raw) c d l)
      = trace (wrap_model self model)
        ++ trace (reinitialize_if_ep self raw wm)
        ++ trace (build_optimizer_wrapper self raw' wm (get_param_info (Some raw)))
        ++ [SetAttr wm "update_master_params"].
Proof.
  intros Hraw. rewrite (configure_raw _ _ _ _ _ _ Hraw). intros Hret.
  pose proof Hret as Hret'.
  apply returns_bind_inv in Hret' as (wm & Hwm & Hret').
  apply returns_bind_inv in Hret' as (raw' & Hre & Hret').
  apply returns_bind_inv in Hret' as (wrapped & Hbuild & Hret').
  rewrite inject_returns in Hret'. apply returns_bind_inv in Hret' as (wm2 & Hinj & Hres).
  apply returns_mret_inv in Hres. injection Hinj as <-.
  exists wm, raw', wrapped. repeat split; try done.
  rewrite (trace_bind_returns _ _ _ Hwm), (trace_bind_returns _ _ _ Hre),
    (trace_bind_returns _ _ _ Hbuild).
  rewrite inject_returns. simpl. reflexivity.
Qed.

Lemma configure_raw_returns self model raw c d l wm raw' wrapped :
  optim_is_wrapper raw = false →
  returns (wrap_model self model) wm →
  returns (reinitialize_if_ep self raw wm) raw' →
  returns (build_optimizer_wrapper self raw' wm (get_param_info (Some raw))) wrapped →
  returns (configure self model (Some raw) c d l)
    (setattr wm "update_master_params"
       (MethodType (BoundMethod wrapped "update_master_params") (module_id wm)),
     Some wrapped, c, d, l).
Proof.
  intros Hraw Hwm Hre Hbuild. rewrite (configure_raw _ _ _ _ _ _ Hraw).
  apply (returns_bind _ _ wm); [done|].
  apply (returns_bind _ _ raw'); [done|].
  apply (returns_bind _ _ wrapped); [done|].
  reflexivity.
Qed.

Lemma configure_passthrough_facts self model optimizer c d l :
  (optimizer = None ∨ ∃ o, optimizer = Some o ∧ optim_is_wrapper o = true) →
  trace (configure self model optimizer c d l) = trace (wrap_model self model)
  ∧ ∀ res : configured,
      returns (configure self model optimizer c d l) res
      ↔ ∃ wm, returns (wrap_model self model) wm ∧ res = (wm, optimizer, c, d, l).
Proof.
  intros Hopt. rewrite (configure_passthrough _ _ _ _ _ _ Hopt).
  rewrite trace_bind_mret. split; [done|].
  intros res. apply returns_bind_mret.
Qed.

(** C10. When the optimizer argument is [None] or already an optimizer
    wrapper, [configure] does nothing beyond wrapping the model: its trace
    is that of the model step, with no reinitialization, no wrapper
    construction and no attribute assignment, and it returns exactly when
    the model step returns, with that model and the optimizer as passed. *)
Theorem configure_leaves_optimizer self model optimizer c d l :
  (optimizer = None ∨ ∃ o, optimizer = Some o ∧ optim_is_wrapper o = true) →
  trace (configure self model optimizer c d l) = trace (wrap_model self model)
  ∧ Forall (λ ev, is_optimizer_event ev = false)
           (trace (configure self model optimizer c d l))
  ∧ ∀ res : configured,
      returns (configure self model optimizer c d l) res
      ↔ ∃ wm, returns (wrap_model self model) wm ∧ res = (wm, optimizer, c, d, l).
Proof.
  intros Hopt.
  destruct (configure_passthrough_facts self model optimizer c d l Hopt)
    as [Htrace Hres].
  split; [exact Htrace|]. split; [|exact Hres].
  rewrite Htrace, wrap_model_trace.
  destruct (module_is_wrapper model); repeat constructor.
Qed.

(** C9. Whenever [configure] returns, the criterion, the dataloader and
    the learning-rate scheduler are the ones passed in.  A model that is
    already a model wrapper is never wrapped again: no model wrapper is
    constructed and the returned model is that same object, either as
    passed or with the [update_master_params] attribute assigned. *)
Theorem configure_frame self model optimizer c d l
    (m' : Module) (o' : option Optimizer) (c' : option Callable)
    (d' : option DataLoader) (l' : option LRScheduler) :
  returns (configure self model optimizer c d l) (m', o', c', d', l') →
  c' = c ∧ d' = d ∧ l' = l
  ∧ (module_is_wrapper model = true →
     Forall (λ ev, is_module_wrapping ev = false)
            (trace (configure self model optimizer c d l))
     ∧ (m' = model
        ∨ ∃ o, o' = Some o
               ∧ m' = setattr model "update_master_params"
                        (MethodType (BoundMethod o "update_master_params")
                                    (module_id model)))
     ∧ module_id m' = module_id model
     ∧ module_is_wrapper m' = true
     ∧ module_parameters m' = module_parameters model).
Proof.
  intros Hret.
  assert (Hcases : (optimizer = None ∨ ∃ o, optimizer = Some o ∧ optim_is_wrapper o = true)
                   ∨ ∃ raw, optimizer = Some raw ∧ optim_is_wrapper raw = false).
  { destruct optimizer as [o|]; [|by left; left].
    destruct (optim_is_wrapper o) eqn:Hw; [left; right|right]; eauto. }
  destruct Hcases as [Hpass|(raw & -> & Hraw)].
  - destruct (configure_passthrough_facts self model optimizer c d l Hpass)
      as (Htrace & Hres).
    apply Hres in Hret as (wm & Hwm & [= -> -> -> -> ->]).
    do 3 (split; [done|]).
    intros Hw. rewrite (wrap_model_wrapper _ _ Hw) in Hwm.
    apply returns_mret_inv in Hwm as <-.
    rewrite Htrace, wrap_model_trace, Hw. repeat split; try done. by left.
  - apply (configure_raw_returns_inv _ _ _ _ _ _ _ Hraw) in Hret
      as (wm & raw' & wrapped & Hwm & Hre & Hbuild & [= -> -> -> -> ->] & Htrace).
    do 3 (split; [done|]).
    intros Hw. rewrite (wrap_model_wrapper _ _ Hw) in Hwm.
    apply returns_mret_inv in Hwm as <-.
    split; [|split; [right; eauto|by repeat split]].
    rewrite Htrace, wrap_model_trace, Hw, reinitialize_if_ep_trace. simpl.
    apply Forall_app. split; [destruct (1 <? ep_size self); repeat constructor|].
    apply Forall_app. split; [|repeat constructor].
    eapply Forall_impl; [apply build_optimizer_wrapper_trace|].
    intros ev. unfold wrapper_phase_event. by destruct ev.
Qed.

(** C5. With an expert-parallel size above 1 and an optimizer that is not
    yet a wrapper, [configure] calls [reinitialize_optimizer] on that
    optimizer and on the model as it is after the model step (the sharded
    model), right after the model step: no optimizer wrapper is constructed
    before the call, the call happens once, and the wrapper step that
    follows works on the reinitialized optimizer.  The call is made by
    [configure] itself, as a step of its own between the model step and
    the wrapper step. *)
Theorem reinitialize_before_wrapper self model raw c d l wm :
  1 < ep_size self →
  optim_is_wrapper raw = false →
  returns (wrap_model self model) wm →
  ∃ rest : list event,
    trace (configure self model (Some raw) c d l)
    = trace (wrap_model self model) ++ CallReinitializeOptimizer raw wm :: rest
    ∧ Forall (λ ev, is_wrapper_construction ev = false) (trace (wrap_model self model))
    ∧ Forall (λ ev, is_reinitialization ev = false) rest
    ∧ (∀ raw', reinitialize_optimizer raw wm = inr raw' →
         ∃ rest' : list event,
           rest = trace (build_optimizer_wrapper self raw' wm (get_param_info (Some raw)))
                  ++ rest')
    ∧ (∀ e, reinitialize_optimizer raw wm = inl e →
         rest = [] ∧ raises (configure self model (Some raw) c d l) e).
Proof.
  intros Hep%Z.ltb_lt Hraw Hwm.
  rewrite (configure_raw _ _ _ _ _ _ Hraw).
  rewrite (trace_bind_returns _ _ _ Hwm).
  unfold reinitialize_if_ep. rewrite Hep.
  destruct (reinitialize_optimizer raw wm) as [e|raw'] eqn:Hre.
  - exists []. split; [reflexivity|]. split.
    { rewrite wrap_model_trace. destruct (module_is_wrapper model); repeat constructor. }
    split; [constructor|]. split; [intros ? [=]|].
    intros e' [= <-]. split; [done|].
    apply (raises_bind_r _ _ wm); [done|].
    apply raises_bind_l. unfold raises, call. simpl. exact Hre.
  - eexists. split; [reflexivity|]. split.
    { rewrite wrap_model_trace. destruct (module_is_wrapper model); repeat constructor. }
    split; [|split; [|intros ? [=]]].
    + simpl. apply Forall_trace_bind.
      * eapply Forall_impl; [apply build_optimizer_wrapper_trace|].
        intros ev. unfold wrapper_phase_event. by destruct ev.
      * intros wrapped. repeat constructor.
    + intros ? [= <-]. simpl. apply trace_bind_prefix.
Qed.

(** Without expert parallelism no reinitialization takes place. *)
Lemma no_reinitialization_without_ep self model optimizer c d l :
  ep_size self <= 1 →
  Forall (λ ev, is_reinitialization ev = false)
         (trace (configure self model optimizer c d l)).
Proof.
  intros Hep. assert (Hltb : (1 <? ep_size self) = false) by (apply Z.ltb_ge; lia).
  unfold configure. apply Forall_trace_bind.
  { rewrite wrap_model_trace. destruct (module_is_wrapper model); repeat constructor. }
  intros wm. destruct optimizer as [raw|]; [|constructor].
  destruct (negb (optim_is_wrapper raw)); [|constructor].
  apply Forall_trace_bind.
  { rewrite reinitialize_if_ep_trace, Hltb. constructor. }
  intros raw'. apply Forall_trace_bind.
  { eapply Forall_impl; [apply build_optimizer_wrapper_trace|].
    intros ev. unfold wrapper_phase_event. by destruct ev. }
  intros wrapped. repeat constructor.
Qed.

(** C6 (as amended). Whenever [configure] returns for an optimizer that
    was not yet a wrapper, the returned optimizer is the wrapper it
    constructed and the returned model is the wrapped model with the
    attribute [update_master_params] assigned on the instance:
    [MethodType(optimizer.update_master_params, model)].  The assignment is
    the last thing [configure] does, after the wrapper is constructed. *)
Theorem update_master_params_injected self model raw c d l (res : configured) :
  optim_is_wrapper raw = false →
  returns (configure self model (Some raw) c d l) res →
  ∃ wm raw' wrapped,
    returns (wrap_model self model) wm
    ∧ returns (reinitialize_if_ep self raw wm) raw'
    ∧ returns (build_optimizer_wrapper self raw' wm (get_param_info (Some raw))) wrapped
    ∧ res = (setattr wm "update_master_params"
               (MethodType (BoundMethod wrapped "update_master_params") (module_id wm)),
             Some wrapped, c, d, l)
    ∧ exposes_update_master_params
        (setattr wm "update_master_params"
           (MethodType (BoundMethod wrapped "update_master_params") (module_id wm)))
        wrapped
    ∧ ∃ before : list event,
        trace (configure self model (Some raw) c d l)
        = before ++ [SetAttr wm "update_master_params"]
        ∧ Forall (λ ev, is_setattr ev = false) before.
Proof.
  intros Hraw Hret.
  destruct (configure_raw_returns_inv _ _ _ _ _ _ _ Hraw Hret)
    as (wm & raw' & wrapped & Hwm & Hre & Hbuild & -> & Htrace).
  exists wm, raw', wrapped. do 4 (split; [done|]). split.
  - unfold exposes_update_master_params, getattr, setattr. simpl.
    by rewrite lookup_insert_eq.
  - eexists. rewrite Htrace, !app_assoc. split; [reflexivity|].
    rewrite wrap_model_trace, reinitialize_if_ep_trace.
    apply Forall_app. split; [apply Forall_app; split|].
    + destruct (module_is_wrapper model); repeat constructor.
    + destruct (1 <? ep_size self); repeat constructor.
    + eapply Forall_impl; [apply build_optimizer_wrapper_trace|].
      intros ev. unfold wrapper_phase_event. by destruct ev.
Qed.

(** *** The sharded optimizer with degenerate data-parallel groups *)

Lemma build_optimizer_wrapper_zero self raw wm (pinfo : ParamInfo) :
  zero_stage (base self) ≠ 0 →
  build_optimizer_wrapper self raw wm pinfo = build_zero_optimizer self raw wm pinfo.
Proof.
  intros Hstage. unfold build_optimizer_wrapper.
  by destruct (Z.eqb_spec (zero_stage (base self)) 0).
Qed.

Lemma build_zero_optimizer_degenerate self raw wm (pinfo : ParamInfo) :
  dp_size (base self) <= 1 → moe_dp_size self <= 1 →
  build_zero_optimizer self raw wm pinfo
  = Run (Warn ZERO_DP1_WARNING :: trace (call_zero_optimizer self raw wm pinfo))
        (outcome (call_zero_optimizer self raw wm pinfo)).
Proof.
  intros Hdp Hmoe. unfold build_zero_optimizer.
  assert (Hd : (1 <? dp_size (base self)) = false) by (apply Z.ltb_ge; lia).
  assert (Hm : (1 <? moe_dp_size self) = false) by (apply Z.ltb_ge; lia).
  rewrite Hd, Hm. reflexivity.
Qed.

Lemma call_zero_optimizer_trace self raw wm (pinfo : ParamInfo) :
  ∃ rest : list event,
    trace (call_zero_optimizer self raw wm pinfo) = CallMoeZeroOptimizer raw wm :: rest.
Proof. unfold call_zero_optimizer. by eexists. Qed.

Lemma call_zero_optimizer_returns_iff self raw wm (pinfo : ParamInfo) wrapped :
  returns (call_zero_optimizer self raw wm pinfo) wrapped
  ↔ ∃ kw,
      returns (bind_zero_kwargs (max_norm (base self)) (zero_config (base self))
                 (amp_config (base self))) kw
      ∧ returns (MoeHybridParallelZeroOptimizer
                   (zero_optimizer_args self raw wm pinfo kw)) wrapped.
Proof.
  unfold call_zero_optimizer. split.
  - intros (_ & _ & (kw & Hkw & Hopt)%returns_bind_inv)%returns_bind_inv. eauto.
  - intros (kw & Hkw & Hopt).
    apply (returns_bind _ _ tt); [done|]. by apply (returns_bind _ _ kw).
Qed.

(** C8 (as amended). With a ZeRO stage other than 0, an optimizer that is
    not yet a wrapper, and data-parallel and expert-data-parallel sizes
    both at most 1, [configure] (once the model step and the
    reinitialization step have returned) emits the inefficiency warning and
    then calls the constructor of the sharded optimizer: the size condition
    never raises by itself.  [configure] returns the sharded optimizer
    exactly when the keyword dictionaries bind and that constructor
    returns; whatever the constructor call raises, [configure] raises. *)
Theorem zero_dp1_warning self model raw c d l wm raw' :
  zero_stage (base self) ≠ 0 →
  dp_size (base self) <= 1 →
  moe_dp_size self <= 1 →
  optim_is_wrapper raw = false →
  returns (wrap_model self model) wm →
  returns (reinitialize_if_ep self raw wm) raw' →
  (∃ rest : list event,
     trace (configure self model (Some raw) c d l)
     = trace (wrap_model self model) ++ trace (reinitialize_if_ep self raw wm)
       ++ Warn ZERO_DP1_WARNING :: CallMoeZeroOptimizer raw' wm :: rest)
  ∧ (∀ wrapped,
       returns (configure self model (Some raw) c d l)
         (setattr wm "update_master_params"
            (MethodType (BoundMethod wrapped "update_master_params") (module_id wm)),
          Some wrapped, c, d, l)
       ↔ ∃ kw,
           returns (bind_zero_kwargs (max_norm (base self)) (zero_config (base self))
                      (amp_config (base self))) kw
           ∧ returns (MoeHybridParallelZeroOptimizer
                        (zero_optimizer_args self raw' wm (get_param_info (Some raw)) kw))
                     wrapped)
  ∧ (∀ e, raises (call_zero_optimizer self raw' wm (get_param_info (Some raw))) e →
          raises (configure self model (Some raw) c d l) e).
Proof.
  intros Hstage Hdp Hmoe Hraw Hwm Hre.
  pose proof (build_optimizer_wrapper_zero self raw' wm (get_param_info (Some raw)) Hstage)
    as Hzero.
  pose proof (build_zero_optimizer_degenerate self raw' wm (get_param_info (Some raw))
                Hdp Hmoe) as Hdeg.
  split; [|split].
  - rewrite (configure_raw _ _ _ _ _ _ Hraw).
    rewrite (trace_bind_returns _ _ _ Hwm), (trace_bind_returns _ _ _ Hre).
    destruct (trace_bind_prefix
                (build_optimizer_wrapper self raw' wm (get_param_info (Some raw)))
                (λ wrapped, wm2 ← inject_update_master_params wm wrapped;
                            mret (wm2, Some wrapped, c, d, l))) as [rest1 ->].
    destruct (call_zero_optimizer_trace self raw' wm (get_param_info (Some raw)))
      as [rest2 Hrest2].
    rewrite Hzero, Hdeg. cbn [trace]. rewrite Hrest2.
    exists (rest2 ++ rest1). reflexivity.
  - intros wrapped. rewrite <- call_zero_optimizer_returns_iff. split.
    + intros Hret.
      destruct (configure_raw_returns_inv _ _ _ _ _ _ _ Hraw Hret)
        as (wm0 & raw0 & wrapped0 & Hwm0 & Hre0 & Hbuild & Hres & _).
      rewrite <- (returns_det _ _ _ Hwm Hwm0) in *.
      rewrite <- (returns_det _ _ _ Hre Hre0) in *.
      injection Hres as _ <-.
      rewrite Hzero, Hdeg in Hbuild. exact Hbuild.
    + intros Hcall. apply (configure_raw_returns _ _ _ _ _ _ wm raw'); try done.
      rewrite Hzero, Hdeg. exact Hcall.
  - intros e Hcall. rewrite (configure_raw _ _ _ _ _ _ Hraw).
    apply (raises_bind_r _ _ wm); [done|].
    apply (raises_bind_r _ _ raw'); [done|].
    apply raises_bind_l. rewrite Hzero, Hdeg. exact Hcall.
Qed.

End ConfigureClaims.

(** The plugins used below are the ones construction yields. *)
Example demo_plugin_constructed :
  returns (MoeHybridParallelPlugin_init (Demo.super_init 1 1 1 Demo.overlap_config)
             8 8 1 (VBool false))
          (Demo.plugin 1 1 1 8 Demo.overlap_config (VBool false))
  ∧ returns (MoeHybridParallelPlugin_init (Demo.super_init 2 1 0 ∅) 8 4 1 (VBool false))
            (Demo.plugin 2 1 0 4 ∅ (VBool false)).
Proof. split; reflexivity. Qed.

Lemma reinitialize_before_wrapper_witness :
  ∃ rest : list event,
    trace (configure (Demo.plugin 2 1 0 4 ∅ (VBool false)) Demo.raw_model
             (Some Demo.raw_optimizer) None None None)
    = [CallHybridParallelModule Demo.raw_model;
       CallReinitializeOptimizer Demo.raw_optimizer Demo.sharded_model] ++ rest.
Proof.
  destruct (reinitialize_before_wrapper (Demo.plugin 2 1 0 4 ∅ (VBool false))
              Demo.raw_model Demo.raw_optimizer None None None Demo.sharded_model)
    as (rest & Htrace & _).
  - simpl. lia.
  - reflexivity.
  - reflexivity.
  - exists rest. exact Htrace.
Defined.

Lemma update_master_params_injected_witness :
  ∃ wm wrapped,
    returns (wrap_model (Demo.plugin 2 1 0 4 ∅ (VBool false)) Demo.raw_model) wm
    ∧ exposes_update_master_params
        (setattr wm "update_master_params"
           (MethodType (BoundMethod wrapped "update_master_params") (module_id wm)))
        wrapped.
Proof.
  assert (Hret : returns
            (configure (Demo.plugin 2 1 0 4 ∅ (VBool false)) Demo.raw_model
               (Some Demo.raw_optimizer) None None None)
            (Demo.hooked Demo.sharded_model, Some Demo.built_optimizer, None, None, None))
    by (vm_compute; reflexivity).
  destruct (update_master_params_injected (Demo.plugin 2 1 0 4 ∅ (VBool false))
              Demo.raw_model Demo.raw_optimizer None None None _ eq_refl Hret)
    as (wm & raw' & wrapped & Hwm & _ & _ & _ & Hexposed & _).
  exists wm, wrapped. split; [exact Hwm | exact Hexposed].
Defined.

(** C6 (as stated) fails: the hook is put on the model by assigning an
    attribute on the instance. *)
Lemma update_hook_rebinding_counterexample :
  ¬ update_hook_without_rebinding
      (configure (Demo.plugin 2 1 0 4 ∅ (VBool false)) Demo.raw_model
         (Some Demo.raw_optimizer) None None None).
Proof.
  intros (m & o & c & d & l & Hret & _ & Hnone).
  destruct (configure_raw_returns_inv _ Demo.raw_model Demo.raw_optimizer
              _ _ _ _ eq_refl Hret)
    as (wm & raw' & wrapped & _ & _ & _ & _ & Htrace).
  rewrite Htrace, !app_assoc in Hnone.
  apply Forall_app in Hnone as [_ Hlast].
  apply Forall_cons in Hlast as [Hset _]. discriminate Hset.
Qed.

Lemma zero_dp1_warning_witness :
  ∃ rest : list event,
    trace (configure (Demo.plugin 1 1 1 8 Demo.overlap_config (VBool true))
             Demo.raw_model (Some Demo.raw_optimizer) None None None)
    = [CallHybridParallelModule Demo.raw_model]
      ++ [CallReinitializeOptimizer Demo.raw_optimizer Demo.sharded_model]
      ++ Warn ZERO_DP1_WARNING
         :: CallMoeZeroOptimizer Demo.raw_optimizer Demo.sharded_model :: rest.
Proof.
  destruct (zero_dp1_warning (Demo.plugin 1 1 1 8 Demo.overlap_config (VBool true))
              Demo.raw_model Demo.raw_optimizer None None None
              Demo.sharded_model Demo.raw_optimizer)
    as ((rest & Htrace) & _).
  - vm_compute. discriminate.
  - vm_compute. discriminate.
  - vm_compute. discriminate.
  - reflexivity.
  - reflexivity.
  - reflexivity.
  - exists rest. exact Htrace.
Defined.

(** C8 (as stated) fails: with the overlap requested in [zero_config] and
    [force_overlap_comm] false, the warning is emitted and the constructor
    of the sharded optimizer then raises, so no optimizer is returned. *)
Lemma zero_dp1_overlap_counterexample :
  ¬ zero_dp1_warned_and_built
      (configure (Demo.plugin 1 1 1 8 Demo.overlap_config (VBool false))
         Demo.raw_model (Some Demo.raw_optimizer) None None None).
Proof.
  intros (_ & m & o & c & d & l & Hret).
  vm_compute in Hret. discriminate Hret.
Qed.

Lemma configure_frame_witness :
  Forall (λ ev, is_module_wrapping ev = false)
         (trace (configure (Demo.plugin 2 1 0 4 ∅ (VBool false)) Demo.wrapped_model
                   (Some Demo.raw_optimizer) (Some 7%positive) (Some 8%positive)
                   (Some 9%positive))).
Proof.
  assert (Hret : returns
            (configure (Demo.plugin 2 1 0 4 ∅ (VBool false)) Demo.wrapped_model
               (Some Demo.raw_optimizer) (Some 7%positive) (Some 8%positive)
               (Some 9%positive))
            (Demo.hooked Demo.wrapped_model, Some Demo.built_optimizer,
             Some 7%positive, Some 8%positive, Some 9%positive))
    by (vm_compute; reflexivity).
  destruct (configure_frame _ _ _ _ _ _ _ _ _ _ _ Hret) as (_ & _ & _ & Hwrapper).
  apply Hwrapper. reflexivity.
Defined.

Lemma configure_leaves_optimizer_witness :
  trace (configure (Demo.plugin 2 1 0 4 ∅ (VBool false)) Demo.raw_model
           (Some Demo.wrapped_optimizer) None None None)
  = [CallHybridParallelModule Demo.raw_model]
  ∧ trace (configure (Demo.plugin 2 1 0 4 ∅ (VBool false)) Demo.raw_model
             None None None None)
    = [CallHybridParallelModule Demo.raw_model].
Proof.
  split.
  - apply (configure_leaves_optimizer (Demo.plugin 2 1 0 4 ∅ (VBool false))
             Demo.raw_model (Some Demo.wrapped_optimizer) None None None).
    right. exists Demo.wrapped_optimizer. split; reflexivity.
  - apply (configure_leaves_optimizer (Demo.plugin 2 1 0 4 ∅ (VBool false))
             Demo.raw_model None None None None).
    left. reflexivity.
Defined.

(** * Further properties *)

(** ** Construction of the plugin *)

Section ConstructionProperties.
Context `{Collaborators}.

(** X1. With [moe_tp_size = 1] and [ep_size = 0], once the base
    constructor has returned, construction raises [ZeroDivisionError] at
    the division of line 120: after the DDP step, before any mesh is built
    or group asked for. *)
Theorem ep_size_zero_division (super_init : M HybridParallelPlugin)
    (self : HybridParallelPlugin) (w : Z) (force : pyval) :
  returns super_init self →
  raises (MoeHybridParallelPlugin_init super_init w 0 1 force) ZeroDivisionError
  ∧ trace (MoeHybridParallelPlugin_init super_init w 0 1 force)
    = trace super_init ++ trace (configure_ddp self)
  ∧ Forall (λ ev, is_mesh_event ev = false) (trace (configure_ddp self)).
Proof.
  intros Hsuper. unfold MoeHybridParallelPlugin_init, raises.
  rewrite (bind_returns _ _ self Hsuper), init_body_zero_division. simpl.
  repeat split. apply configure_ddp_trace_warnings.
Qed.

(** X2. A construction that completes was called with [moe_tp_size = 1]
    and a nonzero [ep_size]; it leaves [moe_tp_size = 1], [ep_size] as
    given, [moe_dp_size] the floor quotient of the world size by [ep_size],
    a mesh of shape [(moe_dp_size, ep_size, 1)], the three groups taken
    along axes 0, 1 and 2 of that mesh, [force_overlap_comm] as given, and
    [shard_config.ep_group] set to the plugin's expert-parallel group. *)
Theorem construction_postconditions (super_init : M HybridParallelPlugin)
    (self : HybridParallelPlugin) (w ep tp : Z) (force : pyval)
    (plugin : MoeHybridParallelPlugin) :
  returns super_init self →
  returns (MoeHybridParallelPlugin_init super_init w ep tp force) plugin →
  tp = 1 ∧ ep ≠ 0
  ∧ moe_tp_size plugin = 1
  ∧ ep_size plugin = ep
  ∧ moe_dp_size plugin = w / ep
  ∧ mesh_shape (moe_pg_mesh plugin) = [w / ep; ep; 1]
  ∧ (moe_dp_axis plugin, ep_axis plugin, moe_tp_axis plugin) = (0, 1, 2)
  ∧ moe_dp_group plugin = get_group_along_axis (moe_pg_mesh plugin) 0
  ∧ ep_group plugin = get_group_along_axis (moe_pg_mesh plugin) 1
  ∧ moe_tp_group plugin = get_group_along_axis (moe_pg_mesh plugin) 2
  ∧ sc_ep_group (shard_config (base plugin)) = Some (ep_group plugin)
  ∧ force_overlap_comm plugin = force
  ∧ use_ddp plugin = use_ddp_of self.
Proof.
  intros Hsuper Hret.
  destruct (proj1 (init_returns_iff _ w ep tp force _ Hsuper) (ex_intro _ _ Hret))
    as (Htp & Hep & _).
  rewrite (init_returns_inv _ _ _ _ _ _ _ Hsuper Hret).
  repeat split; done.
Qed.

(** X3. A construction that completes leaves the attributes set by the
    base constructor as they were, except that [shard_config.ep_group] is
    written and that [ddp_config] may have changed at the key
    [find_unused_parameters] and at no other key. *)
Theorem construction_frame (super_init : M HybridParallelPlugin)
    (self : HybridParallelPlugin) (w ep tp : Z) (force : pyval)
    (plugin : MoeHybridParallelPlugin) :
  returns super_init self →
  returns (MoeHybridParallelPlugin_init super_init w ep tp force) plugin →
  dp_size (base plugin) = dp_size self
  ∧ pp_size (base plugin) = pp_size self
  ∧ zero_stage (base plugin) = zero_stage self
  ∧ precision (base plugin) = precision self
  ∧ dp_group (base plugin) = dp_group self
  ∧ tp_group (base plugin) = tp_group self
  ∧ pp_group (base plugin) = pp_group self
  ∧ sp_group (base plugin) = sp_group self
  ∧ custom_policy (base plugin) = custom_policy self
  ∧ enable_pipeline_parallelism (base plugin) = enable_pipeline_parallelism self
  ∧ max_norm (base plugin) = max_norm self
  ∧ amp_config (base plugin) = amp_config self
  ∧ zero_config (base plugin) = zero_config self
  ∧ shard_config_id (shard_config (base plugin)) = shard_config_id (shard_config self)
  ∧ ∀ key : string, key ≠ "find_unused_parameters" →
      ddp_config (base plugin) !! key = ddp_config self !! key.
Proof.
  intros Hsuper Hret.
  rewrite (init_returns_inv _ _ _ _ _ _ _ Hsuper Hret).
  unfold built_plugin, after_ddp. simpl.
  destruct (use_ddp_of self); simpl; repeat split; try done.
  intros key Hkey. by rewrite lookup_insert_ne.
Qed.

(** X4. A construction that completes has emitted, after the events of
    the base constructor and in this order: the DDP warning if plain DDP
    mode applies, one mesh construction with the sizes
    [(world_size // ep_size, ep_size, 1)], the three group queries along
    axes 0, 1, 2, and the log line. *)
Theorem construction_events (super_init : M HybridParallelPlugin)
    (self : HybridParallelPlugin) (w ep tp : Z) (force : pyval)
    (plugin : MoeHybridParallelPlugin) :
  returns super_init self →
  returns (MoeHybridParallelPlugin_init super_init w ep tp force) plugin →
  trace (MoeHybridParallelPlugin_init super_init w ep tp force)
  = trace super_init
    ++ (if use_ddp_of self then [Warn DDP_WARNING] else [])
    ++ [BuildMesh [w / ep; ep; 1]; GetGroupAlongAxis 0; GetGroupAlongAxis 1;
        GetGroupAlongAxis 2; LoggerInfo ep (w / ep) 1].
Proof.
  intros Hsuper Hret.
  destruct (proj1 (init_returns_iff _ w ep tp force _ Hsuper) (ex_intro _ _ Hret))
    as (-> & Hep & Hprod).
  unfold MoeHybridParallelPlugin_init.
  rewrite (bind_returns _ _ self Hsuper). simpl.
  rewrite init_body_success by done. simpl.
  by rewrite configure_ddp_trace.
Qed.

(** X5. The model wrapper that [configure] constructs for a plain model on
    a completed plugin receives the settings the constructor prepared: the
    [use_ddp] flag of line 108, a [shard_config] whose [ep_group] is the
    plugin's expert-parallel group, a [ddp_config] with
    [find_unused_parameters = True] exactly in plain DDP mode (and the base
    constructor's [ddp_config] otherwise), and the base constructor's
    groups, precision and policy. *)
Theorem model_wrapper_arguments (super_init : M HybridParallelPlugin)
    (self : HybridParallelPlugin) (w ep tp : Z) (force : pyval)
    (plugin : MoeHybridParallelPlugin) (model : Module) :
  returns super_init self →
  returns (MoeHybridParallelPlugin_init super_init w ep tp force) plugin →
  module_is_wrapper model = false →
  ∃ args : ModuleArgs,
    wrap_model plugin model
    = Run [CallHybridParallelModule model] (HybridParallelModule args)
    ∧ ma_module args = model
    ∧ ma_use_ddp args = use_ddp_of self
    ∧ sc_ep_group (ma_shard_config args) = Some (ep_group plugin)
    ∧ (use_ddp_of self = true →
       ma_ddp_config args = <["find_unused_parameters" := VBool true]> (ddp_config self))
    ∧ (use_ddp_of self = false → ma_ddp_config args = ddp_config self)
    ∧ ma_dp_group args = dp_group self
    ∧ ma_tp_group args = tp_group self
    ∧ ma_sp_group args = sp_group self
    ∧ ma_precision args = precision self
    ∧ ma_custom_policy args = custom_policy self.
Proof.
  intros Hsuper Hret Hplain.
  rewrite (init_returns_inv _ _ _ _ _ _ _ Hsuper Hret).
  unfold wrap_model. rewrite Hplain. simpl.
  eexists. split; [reflexivity|]. simpl. unfold after_ddp.
  destruct (use_ddp_of self); simpl; repeat split; done.
Qed.

(** X6. For a completed plugin, [get_checkpoint_io] hands to
    [MoECheckpointIO], in this order, the base constructor's data-, pipeline-
    and tensor-parallel groups, the expert-parallel group (axis 1 of the MoE
    mesh, the same handle that was written to [shard_config.ep_group]),
    the expert-data-parallel group (axis 0) and the base constructor's ZeRO
    stage; it returns or raises what that constructor does. *)
Theorem checkpoint_io_arguments (super_init : M HybridParallelPlugin)
    (self : HybridParallelPlugin) (w ep tp : Z) (force : pyval)
    (plugin : MoeHybridParallelPlugin)
    (MoECheckpointIO : CheckpointIOArgs → exn + CheckpointIO) :
  returns super_init self →
  returns (MoeHybridParallelPlugin_init super_init w ep tp force) plugin →
  get_checkpoint_io MoECheckpointIO plugin
  = MoECheckpointIO
      {| cio_dp_group := dp_group self;
         cio_pp_group := pp_group self;
         cio_tp_group := tp_group self;
         cio_ep_group := get_group_along_axis {| mesh_shape := [w / ep; ep; 1] |} 1;
         cio_moe_dp_group := get_group_along_axis {| mesh_shape := [w / ep; ep; 1] |} 0;
         cio_zero_stage := zero_stage self |}
  ∧ sc_ep_group (shard_config (base plugin))
    = Some (cio_ep_group (get_checkpoint_io_args plugin)).
Proof.
  intros Hsuper Hret.
  rewrite (init_returns_inv _ _ _ _ _ _ _ Hsuper Hret).
  unfold get_checkpoint_io, get_checkpoint_io_args, built_plugin, after_ddp. simpl.
  destruct (use_ddp_of self); simpl; split; reflexivity.
Qed.

End ConstructionProperties.

Lemma ep_size_zero_division_witness :
  raises (MoeHybridParallelPlugin_init (Demo.super_init 2 1 0 ∅) 8 0 1 (VBool false))
         ZeroDivisionError.
Proof.
  apply (ep_size_zero_division (Demo.super_init 2 1 0 ∅) (Demo.plugin_base 2 1 0 ∅)
           8 (VBool false)).
  reflexivity.
Defined.

Lemma construction_postconditions_witness :
  moe_dp_size (Demo.plugin 2 1 0 4 ∅ (VBool false)) = 8 / 4
  ∧ sc_ep_group (shard_config (base (Demo.plugin 2 1 0 4 ∅ (VBool false))))
    = Some (ep_group (Demo.plugin 2 1 0 4 ∅ (VBool false))).
Proof.
  destruct (construction_postconditions (Demo.super_init 2 1 0 ∅)
              (Demo.plugin_base 2 1 0 ∅) 8 4 1 (VBool false)
              (Demo.plugin 2 1 0 4 ∅ (VBool false)) eq_refl eq_refl)
    as (_ & _ & _ & _ & Hdp & _ & _ & _ & _ & _ & Hep & _).
  split; [exact Hdp | exact Hep].
Defined.

Lemma construction_frame_witness :
  zero_config (base (Demo.plugin 1 1 1 8 Demo.overlap_config (VBool false)))
  = Demo.overlap_config.
Proof.
  destruct (construction_frame (Demo.super_init 1 1 1 Demo.overlap_config)
              (Demo.plugin_base 1 1 1 Demo.overlap_config) 8 8 1 (VBool false)
              (Demo.plugin 1 1 1 8 Demo.overlap_config (VBool false)) eq_refl eq_refl)
    as (_ & _ & _ & _ & _ & _ & _ & _ & _ & _ & _ & _ & Hzc & _).
  exact Hzc.
Defined.

Lemma construction_events_witness :
  trace (MoeHybridParallelPlugin_init (Demo.super_init 2 1 0 ∅) 8 4 1 (VBool false))
  = [Warn DDP_WARNING; BuildMesh [2; 4; 1]; GetGroupAlongAxis 0; GetGroupAlongAxis 1;
     GetGroupAlongAxis 2; LoggerInfo 4 2 1].
Proof.
  apply (construction_events (Demo.super_init 2 1 0 ∅) (Demo.plugin_base 2 1 0 ∅)
           8 4 1 (VBool false) (Demo.plugin 2 1 0 4 ∅ (VBool false)));
    reflexivity.
Defined.

Lemma model_wrapper_arguments_witness :
  ∃ args : ModuleArgs,
    wrap_model (Demo.plugin 2 1 0 4 ∅ (VBool false)) Demo.raw_model
    = Run [CallHybridParallelModule Demo.raw_model] (HybridParallelModule args)
    ∧ ma_use_ddp args = true.
Proof.
  destruct (model_wrapper_arguments (Demo.super_init 2 1 0 ∅) (Demo.plugin_base 2 1 0 ∅)
              8 4 1 (VBool false) (Demo.plugin 2 1 0 4 ∅ (VBool false)) Demo.raw_model
              eq_refl eq_refl eq_refl)
    as (args & Hrun & _ & Hddp & _).
  exists args. split; [exact Hrun | exact Hddp].
Defined.

Lemma checkpoint_io_arguments_witness :
  sc_ep_group (shard_config (base (Demo.plugin 2 1 0 4 ∅ (VBool false))))
  = Some (cio_ep_group (get_checkpoint_io_args (Demo.plugin 2 1 0 4 ∅ (VBool false)))).
Proof.
  apply (checkpoint_io_arguments (Demo.super_init 2 1 0 ∅) (Demo.plugin_base 2 1 0 ∅)
           8 4 1 (VBool false) (Demo.plugin 2 1 0 4 ∅ (VBool false))
           (λ _, inr 1%positive));
    reflexivity.
Defined.

(** ** The sharded optimizer and its group assignment *)

Section ShardedOptimizerProperties.
Context `{Collaborators}.

Lemma set_overlap_communication_same (kw : ZeroKw) :
  set_overlap_communication (overlap_communication kw) kw = kw.
Proof. by destruct kw. Qed.

(** X7. When [force_overlap_comm], [overlap_communication] and
    [partition_grad] are all falsy, the constructor warns about nothing and
    calls the base constructor with every keyword argument as it was
    passed, the model, optimizer, parameter info and tensor/pipeline groups
    unchanged, and the group assignment computed from the model's
    parameters; its outcome is the base constructor's. *)
Theorem unrequested_overlap_passes_through (a : ZeroArgs) :
  truthy (za_force_overlap_comm a) = false →
  truthy (overlap_communication (za_kw a)) = false →
  truthy (partition_grad (za_kw a)) = false →
  ∃ base_args : ZeroBaseArgs,
    MoeHybridParallelZeroOptimizer a
    = Run [CallZeroOptimizerBase (za_optimizer a) (za_model a)]
          (HybridParallelZeroOptimizer base_args)
    ∧ zb_kw base_args = za_kw a
    ∧ zb_model base_args = za_model a
    ∧ zb_optimizer base_args = za_optimizer a
    ∧ zb_use_pipeline base_args = za_use_pipeline a
    ∧ zb_param_info base_args = za_param_info a
    ∧ zb_tp_process_group base_args = za_tp_process_group a
    ∧ zb_pp_process_group base_args = za_pp_process_group a
    ∧ zb_pg_to_param_list base_args
      = pg_param_list_of is_moe_tensor (za_dp_process_group a) (za_moe_dp_group a)
          (module_parameters (za_model a)).
Proof.
  intros Hforce Hoverlap Hpartition. eexists. split.
  - by apply zero_optimizer_unforced.
  - simpl. rewrite set_overlap_communication_same. repeat split.
Qed.

End ShardedOptimizerProperties.

Lemma unrequested_overlap_passes_through_witness :
  ∃ base_args : ZeroBaseArgs,
    MoeHybridParallelZeroOptimizer
      (Demo.zero_args (Some 1%positive) (VBool false) (VBool false))
    = Run [CallZeroOptimizerBase Demo.raw_optimizer Demo.wrapped_model]
          (HybridParallelZeroOptimizer base_args)
    ∧ zb_kw base_args = ZeroKw_defaults.
Proof.
  destruct (unrequested_overlap_passes_through
              (Demo.zero_args (Some 1%positive) (VBool false) (VBool false))
              eq_refl eq_refl eq_refl)
    as (base_args & Hrun & Hkw & _).
  exists base_args. split; [exact Hrun | exact Hkw].
Defined.

(** X8. Whatever the two handles are, the group assignment stores the
    expert list (the parameters the classifier accepts, in input order)
    under the expert handle, and it has no entry under any other handle
    than the two given; it has two entries when the handles differ and one
    when they are the same, in which case the lookup of the data-parallel
    handle yields the expert list. *)
Theorem expert_list_always_stored (is_moe : Tensor → bool)
    (dp : option ProcessGroup) (moe : ProcessGroup) (parameters : list Tensor) :
  pg_param_list_of is_moe dp moe parameters !! Some moe
  = Some (List.filter is_moe parameters)
  ∧ (∀ g, is_Some (pg_param_list_of is_moe dp moe parameters !! g)
          ↔ g = dp ∨ g = Some moe)
  ∧ size (pg_param_list_of is_moe dp moe parameters)
    = (if decide (dp = Some moe) then 1 else 2)%nat
  ∧ (dp = Some moe →
     pg_param_list_of is_moe dp moe parameters !! dp
     = Some (List.filter is_moe parameters)).
Proof.
  split; [unfold pg_param_list_of; by rewrite lookup_insert_eq|].
  split; [|split].
  - intros g. unfold pg_param_list_of.
    destruct (decide (g = Some moe)) as [->|Hmoe].
    { rewrite lookup_insert_eq. split; [by right|by eexists]. }
    rewrite lookup_insert_ne by done.
    destruct (decide (g = dp)) as [->|Hdp].
    { rewrite lookup_insert_eq. split; [by left|by eexists]. }
    rewrite lookup_insert_ne by done. rewrite lookup_empty.
    split; [by intros [? ?]|by intros [?|?]].
  - destruct (decide (dp = Some moe)) as [->|Hne].
    + by rewrite pg_param_list_same_handle, map_size_singleton.
    + by destruct (pg_param_list_lookup is_moe dp moe parameters Hne) as (_ & _ & ->).
  - intros ->. by rewrite pg_param_list_same_handle, lookup_singleton_eq.
Qed.

Lemma filter_all {A : Type} (f : A → bool) (l : list A) :
  Forall (λ x, f x = true) l → List.filter f l = l.
Proof.
  induction 1 as [|x l Hx _ IH]; simpl; [done|]. by rewrite Hx, IH.
Qed.

Lemma filter_none {A : Type} (f : A → bool) (l : list A) :
  Forall (λ x, f x = false) l → List.filter f l = [].
Proof.
  induction 1 as [|x l Hx _ IH]; simpl; [done|]. by rewrite Hx, IH.
Qed.

(** X9. With distinct handles: a model none of whose parameters is an
    expert tensor gets an empty expert list and the regular list equal to
    the whole parameter list; a model all of whose parameters are expert
    tensors gets the converse.  Neither case is an error. *)
Theorem homogeneous_parameter_lists (is_moe : Tensor → bool)
    (dp : option ProcessGroup) (moe : ProcessGroup) (parameters : list Tensor) :
  dp ≠ Some moe →
  (Forall (λ p, is_moe p = false) parameters →
   pg_param_list_of is_moe dp moe parameters !! dp = Some parameters
   ∧ pg_param_list_of is_moe dp moe parameters !! Some moe = Some [])
  ∧ (Forall (λ p, is_moe p = true) parameters →
     pg_param_list_of is_moe dp moe parameters !! dp = Some []
     ∧ pg_param_list_of is_moe dp moe parameters !! Some moe = Some parameters).
Proof.
  intros Hne.
  destruct (pg_param_list_lookup is_moe dp moe parameters Hne) as (Hdp & Hmoe & _).
  rewrite Hdp, Hmoe. split; intros Hall.
  - rewrite (filter_none _ _ Hall). split; [|done]. f_equal.
    apply filter_all. eapply Forall_impl; [exact Hall|].
    intros p Hp. simpl. by rewrite Hp.
  - rewrite (filter_all _ _ Hall). split; [|done]. f_equal.
    apply filter_none. eapply Forall_impl; [exact Hall|].
    intros p Hp. simpl. by rewrite Hp.
Qed.

Lemma homogeneous_parameter_lists_witness :
  pg_param_list_of Demo.demo_is_moe None 10%positive [1; 3; 5]%positive !! None
  = Some [1; 3; 5]%positive
  ∧ pg_param_list_of Demo.demo_is_moe None 10%positive [1; 3; 5]%positive
    !! Some 10%positive = Some [].
Proof.
  apply (homogeneous_parameter_lists Demo.demo_is_moe None 10%positive
           [1; 3; 5]%positive).
  - discriminate.
  - repeat constructor.
Defined.

(** ** configure, step by step *)

Section ConfigureProperties.
Context `{Collaborators}.
Implicit Types (self : MoeHybridParallelPlugin) (model wm : Module)
  (raw wrapped : Optimizer) (optimizer : option Optimizer)
  (c : option Callable) (d : option DataLoader) (l : option LRScheduler)
  (pinfo : ParamInfo).

(** How a [configure] run on a plain optimizer ends, by the outcome of the
    wrapper step. *)
Lemma configure_raw_outcome self model raw c d l wm raw' :
  optim_is_wrapper raw = false →
  returns (wrap_model self model) wm →
  returns (reinitialize_if_ep self raw wm) raw' →
  (∀ e, raises (build_optimizer_wrapper self raw' wm (get_param_info (Some raw))) e →
     configure self model (Some raw) c d l
     = Run (trace (wrap_model self model) ++ trace (reinitialize_if_ep self raw wm)
            ++ trace (build_optimizer_wrapper self raw' wm (get_param_info (Some raw))))
           (inl e))
  ∧ (∀ wrapped,
       returns (build_optimizer_wrapper self raw' wm (get_param_info (Some raw))) wrapped →
       configure self model (Some raw) c d l
       = Run (trace (wrap_model self model) ++ trace (reinitialize_if_ep self raw wm)
              ++ trace (build_optimizer_wrapper self raw' wm (get_param_info (Some raw)))
              ++ [SetAttr wm "update_master_params"])
             (inr (with_update_hook wm wrapped, Some wrapped, c, d, l))).
Proof.
  intros Hraw Hwm Hre. rewrite (configure_raw _ _ _ _ _ _ Hraw).
  rewrite (bind_returns _ _ _ Hwm), (bind_returns _ _ _ Hre). split.
  - intros e He. by rewrite (bind_raises _ _ _ He).
  - intros wrapped Hw. by rewrite (bind_returns _ _ _ Hw).
Qed.

Lemma configure_trace_Forall (P : event → Prop) self model optimizer c d l :
  (∀ m, P (CallHybridParallelModule m)) →
  (∀ o m, P (CallReinitializeOptimizer o m)) →
  (∀ m name, P (SetAttr m name)) →
  (∀ raw wm pinfo, Forall P (trace (build_optimizer_wrapper self raw wm pinfo))) →
  Forall P (trace (configure self model optimizer c d l)).
Proof.
  intros Hmod Hre Hset Hbuild. unfold configure. apply Forall_trace_bind.
  { rewrite wrap_model_trace. destruct (module_is_wrapper model); repeat constructor.
    apply Hmod. }
  intros wm. destruct optimizer as [raw|]; [|constructor].
  destruct (negb (optim_is_wrapper raw)); [|constructor].
  apply Forall_trace_bind.
  { rewrite reinitialize_if_ep_trace. destruct (1 <? ep_size self); repeat constructor.
    apply Hre. }
  intros raw'. apply Forall_trace_bind; [apply Hbuild|].
  intros wrapped. repeat constructor. apply Hset.
Qed.

Lemma zero_optimizer_trace_kinds (a : ZeroArgs) :
  Forall (λ ev, is_warning ev || is_base_zero_call ev = true
                ∧ ev ≠ Warn ZERO_DP1_WARNING)
         (trace (MoeHybridParallelZeroOptimizer a)).
Proof.
  unfold MoeHybridParallelZeroOptimizer, check_overlap, force_overlap.
  destruct (negb (truthy (za_force_overlap_comm a))
            && truthy (py_or (overlap_communication (za_kw a)) (partition_grad (za_kw a))));
    simpl; [constructor|].
  destruct (truthy (za_force_overlap_comm a)); simpl; repeat constructor; discriminate.
Qed.

Lemma call_zero_optimizer_trace_kinds self raw wm pinfo :
  Forall (λ ev, is_warning ev || is_zero_construction ev = true
                ∧ ev ≠ Warn ZERO_DP1_WARNING)
         (trace (call_zero_optimizer self raw wm pinfo)).
Proof.
  unfold call_zero_optimizer. apply Forall_trace_bind.
  { repeat constructor. discriminate. }
  intros _. apply Forall_trace_bind.
  { rewrite bind_zero_kwargs_trace. constructor. }
  intros kw. eapply Forall_impl; [apply zero_optimizer_trace_kinds|].
  intros ev [Hkind Hne]. split; [|done]. by destruct ev.
Qed.

Lemma build_zero_optimizer_shape self raw wm pinfo :
  build_zero_optimizer self raw wm pinfo
  = Run ((if negb ((1 <? dp_size (base self)) || (1 <? moe_dp_size self))
          then [Warn ZERO_DP1_WARNING] else [])
         ++ trace (call_zero_optimizer self raw wm pinfo))
        (outcome (call_zero_optimizer self raw wm pinfo)).
Proof.
  unfold build_zero_optimizer.
  destruct (negb ((1 <? dp_size (base self)) || (1 <? moe_dp_size self)));
    reflexivity.
Qed.

Lemma build_optimizer_wrapper_plain self raw wm pinfo :
  zero_stage (base self) = 0 →
  build_optimizer_wrapper self raw wm pinfo
  = if is_half_precision (precision (base self))
    then Run [CallAMPOptimizer raw wm]
             (HybridParallelAMPOptimizer
                {| aa_optimizer := raw; aa_model := wm;
                   aa_use_pipeline := enable_pipeline_parallelism (base self);
                   aa_param_info := pinfo;
                   aa_precision := precision (base self);
                   aa_max_norm := max_norm (base self);
                   aa_amp_config := amp_config (base self) |})
    else Run [CallNaiveOptimizer raw wm]
             (HybridParallelNaiveOptimizer
                {| na_optimizer := raw; na_model := wm;
                   na_use_pipeline := enable_pipeline_parallelism (base self);
                   na_param_info := pinfo |}).
Proof.
  intros Hstage. unfold build_optimizer_wrapper. rewrite Hstage. reflexivity.
Qed.

(** X10. Which optimizer wrapper [configure] constructs is decided by the
    ZeRO stage and the precision alone.  At stage 0 the sharded optimizer is
    never constructed and the ZeRO inefficiency warning never emitted; with
    precision fp16 or bf16 the naive wrapper is never constructed, with any
    other precision the AMP wrapper is never constructed.  At any other
    stage neither the AMP nor the naive wrapper is constructed, whatever
    the precision. *)
Theorem wrapper_kind_by_stage self model optimizer c d l :
  (zero_stage (base self) = 0 →
     Forall (λ ev, is_zero_construction ev = false ∧ ev ≠ Warn ZERO_DP1_WARNING)
            (trace (configure self model optimizer c d l))
     ∧ (is_half_precision (precision (base self)) = true →
        Forall (λ ev, is_naive_construction ev = false)
               (trace (configure self model optimizer c d l)))
     ∧ (is_half_precision (precision (base self)) = false →
        Forall (λ ev, is_amp_construction ev = false)
               (trace (configure self model optimizer c d l))))
  ∧ (zero_stage (base self) ≠ 0 →
     Forall (λ ev, is_plain_construction ev = false)
            (trace (configure self model optimizer c d l))).
Proof.
  split.
  - intros Hstage. split; [|split].
    + apply configure_trace_Forall; try (intros; split; [done|discriminate]).
      intros raw wm pinfo. rewrite build_optimizer_wrapper_plain by done.
      destruct (is_half_precision _); repeat constructor; discriminate.
    + intros Hhalf. apply configure_trace_Forall; try done.
      intros raw wm pinfo. rewrite build_optimizer_wrapper_plain by done.
      rewrite Hhalf. repeat constructor.
    + intros Hhalf. apply configure_trace_Forall; try done.
      intros raw wm pinfo. rewrite build_optimizer_wrapper_plain by done.
      rewrite Hhalf. repeat constructor.
  - intros Hstage. apply configure_trace_Forall; try done.
    intros raw wm pinfo. rewrite build_optimizer_wrapper_zero by done.
    rewrite build_zero_optimizer_shape. simpl. apply Forall_app. split.
    + destruct (negb _); repeat constructor.
    + eapply Forall_impl; [apply call_zero_optimizer_trace_kinds|].
      intros ev [Hkind _]. by destruct ev.
Qed.

(** X11. When the model wrapper constructor raises, [configure] raises
    the same exception right after that call: nothing is done to or with
    the optimizer, whatever the optimizer argument is. *)
Theorem model_wrapper_failure_propagates self model optimizer c d l (e : exn) :
  raises (wrap_model self model) e →
  module_is_wrapper model = false
  ∧ configure self model optimizer c d l
    = Run [CallHybridParallelModule model] (inl e).
Proof.
  intros He.
  assert (Hplain : module_is_wrapper model = false).
  { destruct (module_is_wrapper model) eqn:Hw; [|done].
    rewrite (wrap_model_wrapper _ _ Hw) in He. discriminate He. }
  split; [done|].
  unfold configure. rewrite (bind_raises _ _ _ He), wrap_model_trace, Hplain.
  reflexivity.
Qed.

(** X12. On a model that is already a model wrapper and an optimizer that
    is absent or already an optimizer wrapper, [configure] does nothing at
    all: it emits no event and returns its five arguments.  In particular,
    configuring again what an earlier call returned is a no-op once those
    objects are wrappers. *)
Theorem configure_noop_on_wrappers self model optimizer c d l :
  module_is_wrapper model = true →
  (optimizer = None ∨ ∃ o, optimizer = Some o ∧ optim_is_wrapper o = true) →
  configure self model optimizer c d l
  = Run [] (inr (model, optimizer, c, d, l)).
Proof.
  intros Hmodel Hopt.
  rewrite (configure_passthrough _ _ _ _ _ _ Hopt), (wrap_model_wrapper _ _ Hmodel).
  reflexivity.
Qed.

(** *** The sharded optimizer as [configure] builds it *)

Lemma bind_zero_kwargs_returns_inv (norm : pyval) (zc ac : kwargs) (kw : ZeroKw) :
  returns (bind_zero_kwargs norm zc ac) kw →
  dom zc ## (dom ac : gset string)
  ∧ dom zc ∪ dom ac ⊆ (list_to_set zero_config_keys : gset string)
  ∧ verbose kw = VBool true
  ∧ clip_grad_norm kw = norm
  ∧ ∀ name, name ∈ zero_config_keys →
      ZeroKw_field name kw
      = Some (default (default VNone (ZeroKw_field name ZeroKw_defaults))
                      ((zc ∪ ac) !! name)).
Proof.
  unfold bind_zero_kwargs, returns.
  case_bool_decide as Hdisj; cbn [negb]; [|discriminate].
  case_bool_decide as Hsub; cbn [negb]; [|discriminate].
  intros [= <-].
  do 4 (split; [done|]).
  intros name Hname. unfold zero_config_keys in Hname.
  repeat (apply elem_of_cons in Hname as [->|Hname]; [reflexivity|]).
  by apply elem_of_nil in Hname.
Qed.

Lemma bind_zero_kwargs_raises (norm : pyval) (zc ac : kwargs) :
  ¬ (dom zc ## (dom ac : gset string)
     ∧ dom zc ∪ dom ac ⊆ (list_to_set zero_config_keys : gset string)) →
  ∃ msg, bind_zero_kwargs norm zc ac = Run [] (inl (TypeError msg)).
Proof.
  intros Hbad. unfold bind_zero_kwargs.
  case_bool_decide as Hdisj; cbn [negb]; [|by eexists].
  case_bool_decide as Hsub; cbn [negb]; [|by eexists].
  by destruct Hbad.
Qed.

Lemma call_zero_optimizer_bound self raw wm pinfo (kw : ZeroKw) :
  returns (bind_zero_kwargs (max_norm (base self)) (zero_config (base self))
             (amp_config (base self))) kw →
  call_zero_optimizer self raw wm pinfo
  = Run (CallMoeZeroOptimizer raw wm
         :: trace (MoeHybridParallelZeroOptimizer
                     (zero_optimizer_args self raw wm pinfo kw)))
        (outcome (MoeHybridParallelZeroOptimizer
                    (zero_optimizer_args self raw wm pinfo kw))).
Proof.
  intros Hkw. unfold call_zero_optimizer.
  rewrite (bind_returns _ _ tt) by reflexivity.
  rewrite (bind_returns _ _ kw Hkw), bind_zero_kwargs_trace. reflexivity.
Qed.

(** X13. The keyword arguments the sharded optimizer gets from
    [configure]: whenever the two dictionaries bind, they have no key in
    common and only keys of the signature that [configure] does not pass
    itself; [verbose] is [True] and [clip_grad_norm] is the plugin's
    [max_norm] whatever the dictionaries hold; every other keyword takes
    the value found in [zero_config] or [amp_config], or the default of the
    signature when neither has the key. *)
Theorem keyword_binding (norm : pyval) (zc ac : kwargs) (kw : ZeroKw) :
  returns (bind_zero_kwargs norm zc ac) kw →
  dom zc ## (dom ac : gset string)
  ∧ dom zc ∪ dom ac ⊆ (list_to_set zero_config_keys : gset string)
  ∧ verbose kw = VBool true
  ∧ clip_grad_norm kw = norm
  ∧ ∀ name, name ∈ zero_config_keys →
      (∀ v, zc !! name = Some v → ZeroKw_field name kw = Some v)
      ∧ (∀ v, ac !! name = Some v → ZeroKw_field name kw = Some v)
      ∧ (zc !! name = None → ac !! name = None →
         ZeroKw_field name kw = ZeroKw_field name ZeroKw_defaults
         ∧ is_Some (ZeroKw_field name kw)).
Proof.
  intros Hret.
  destruct (bind_zero_kwargs_returns_inv _ _ _ _ Hret)
    as (Hdisj & Hsub & Hverbose & Hclip & Hfield).
  do 4 (split; [done|]).
  intros name Hname. rewrite (Hfield name Hname). split; [|split].
  - intros v Hv. by rewrite (lookup_union_Some_l _ _ _ _ Hv).
  - intros v Hv.
    assert (Hzc : zc !! name = None).
    { apply not_elem_of_dom. intros Hin. apply (Hdisj name Hin).
      apply elem_of_dom. by eexists. }
    rewrite lookup_union_r by done. by rewrite Hv.
  - intros Hzc Hac. rewrite lookup_union_r, Hac by done. simpl.
    unfold zero_config_keys in Hname.
    repeat (apply elem_of_cons in Hname as [->|Hname]; [split; [reflexivity|by eexists]|]).
    by apply elem_of_nil in Hname.
Qed.

(** X14. At a ZeRO stage other than 0, when the two keyword dictionaries
    share a key or hold a key that is not a keyword the call leaves open
    (such as [verbose], [clip_grad_norm] or [param_info]), [configure]
    raises [TypeError] at the call of the sharded optimizer: the base
    constructor of the sharded optimizer is never called and no attribute
    is assigned on the model. *)
Theorem keyword_clash_is_type_error self model raw c d l wm raw' :
  zero_stage (base self) ≠ 0 →
  optim_is_wrapper raw = false →
  returns (wrap_model self model) wm →
  returns (reinitialize_if_ep self raw wm) raw' →
  ¬ (dom (zero_config (base self)) ## (dom (amp_config (base self)) : gset string)
     ∧ dom (zero_config (base self)) ∪ dom (amp_config (base self))
       ⊆ (list_to_set zero_config_keys : gset string)) →
  (∃ msg, raises (configure self model (Some raw) c d l) (TypeError msg))
  ∧ (∃ before : list event,
       trace (configure self model (Some raw) c d l)
       = before ++ [CallMoeZeroOptimizer raw' wm])
  ∧ Forall (λ ev, is_base_zero_call ev = false ∧ is_setattr ev = false)
           (trace (configure self model (Some raw) c d l)).
Proof.
  intros Hstage Hraw Hwm Hre Hbad.
  destruct (bind_zero_kwargs_raises (max_norm (base self)) _ _ Hbad) as [msg Hmsg].
  assert (Hbuild : build_optimizer_wrapper self raw' wm (get_param_info (Some raw))
    = Run ((if negb ((1 <? dp_size (base self)) || (1 <? moe_dp_size self))
            then [Warn ZERO_DP1_WARNING] else [])
           ++ [CallMoeZeroOptimizer raw' wm]) (inl (TypeError msg))).
  { rewrite build_optimizer_wrapper_zero, build_zero_optimizer_shape by done.
    unfold call_zero_optimizer. rewrite (bind_returns _ _ tt) by reflexivity.
    by rewrite Hmsg. }
  destruct (configure_raw_outcome self model raw c d l wm raw' Hraw Hwm Hre)
    as [Hfail _].
  rewrite (Hfail (TypeError msg)) by (by rewrite Hbuild).
  rewrite Hbuild. simpl. split; [by exists msg|]. split.
  - eexists. by rewrite !app_assoc.
  - rewrite wrap_model_trace, reinitialize_if_ep_trace. repeat apply Forall_app_2.
    + destruct (module_is_wrapper model); repeat constructor.
    + destruct (1 <? ep_size self); repeat constructor.
    + destruct (negb _); repeat constructor.
    + repeat constructor.
Qed.

(** X15. At a ZeRO stage other than 0, when the dictionaries bind, the
    plugin's [force_overlap_comm] is falsy and the bound keywords request
    [overlap_communication] or [partition_grad], [configure] raises the
    [RuntimeError] of the sharded optimizer's check: the base constructor
    of the sharded optimizer is never called and no attribute is assigned
    on the model. *)
Theorem unforced_overlap_rejected_by_configure self model raw c d l wm raw'
    (kw : ZeroKw) :
  zero_stage (base self) ≠ 0 →
  optim_is_wrapper raw = false →
  returns (wrap_model self model) wm →
  returns (reinitialize_if_ep self raw wm) raw' →
  returns (bind_zero_kwargs (max_norm (base self)) (zero_config (base self))
             (amp_config (base self))) kw →
  truthy (force_overlap_comm self) = false →
  truthy (overlap_communication kw) || truthy (partition_grad kw) = true →
  (∃ msg, raises (configure self model (Some raw) c d l) (RuntimeError msg))
  ∧ Forall (λ ev, is_base_zero_call ev = false ∧ is_setattr ev = false)
           (trace (configure self model (Some raw) c d l)).
Proof.
  intros Hstage Hraw Hwm Hre Hkw Hforce Hreq.
  destruct (check_overlap_rejects _ _ _ Hforce Hreq) as [msg Hmsg].
  assert (Hbuild : build_optimizer_wrapper self raw' wm (get_param_info (Some raw))
    = Run ((if negb ((1 <? dp_size (base self)) || (1 <? moe_dp_size self))
            then [Warn ZERO_DP1_WARNING] else [])
           ++ [CallMoeZeroOptimizer raw' wm]) (inl (RuntimeError msg))).
  { rewrite build_optimizer_wrapper_zero, build_zero_optimizer_shape by done.
    rewrite (call_zero_optimizer_bound _ _ _ _ _ Hkw).
    unfold MoeHybridParallelZeroOptimizer. simpl. by rewrite Hmsg. }
  destruct (configure_raw_outcome self model raw c d l wm raw' Hraw Hwm Hre)
    as [Hfail _].
  rewrite (Hfail (RuntimeError msg)) by (by rewrite Hbuild).
  rewrite Hbuild. simpl. split; [by exists msg|].
  rewrite wrap_model_trace, reinitialize_if_ep_trace. repeat apply Forall_app_2.
  - destruct (module_is_wrapper model); repeat constructor.
  - destruct (1 <? ep_size self); repeat constructor.
  - destruct (negb _); repeat constructor.
  - repeat constructor.
Qed.

(** X16. At a ZeRO stage other than 0, when the dictionaries bind and the
    plugin's [force_overlap_comm] is truthy, [configure] reaches the base
    constructor of the sharded optimizer with [overlap_communication =
    True], [verbose = True], [clip_grad_norm] the plugin's [max_norm], the
    optimizer as reinitialized, the parameter info taken from the optimizer
    as passed, and a group assignment computed over the parameters of the
    wrapped model under the plugin's data-parallel and expert-data-parallel
    groups.  [configure] returns the optimizer that constructor returns and
    raises what it raises. *)
Theorem forced_overlap_through_configure self model raw c d l wm raw' (kw : ZeroKw) :
  zero_stage (base self) ≠ 0 →
  optim_is_wrapper raw = false →
  returns (wrap_model self model) wm →
  returns (reinitialize_if_ep self raw wm) raw' →
  returns (bind_zero_kwargs (max_norm (base self)) (zero_config (base self))
             (amp_config (base self))) kw →
  truthy (force_overlap_comm self) = true →
  ∃ base_args : ZeroBaseArgs,
    outcome (build_optimizer_wrapper self raw' wm (get_param_info (Some raw)))
    = HybridParallelZeroOptimizer base_args
    ∧ overlap_communication (zb_kw base_args) = VBool true
    ∧ partition_grad (zb_kw base_args) = partition_grad kw
    ∧ verbose (zb_kw base_args) = VBool true
    ∧ clip_grad_norm (zb_kw base_args) = max_norm (base self)
    ∧ zb_model base_args = wm
    ∧ zb_optimizer base_args = raw'
    ∧ zb_param_info base_args = get_param_info (Some raw)
    ∧ zb_pg_to_param_list base_args
      = pg_param_list_of is_moe_tensor (dp_group (base self)) (moe_dp_group self)
          (module_parameters wm)
    ∧ (∀ wrapped, HybridParallelZeroOptimizer base_args = inr wrapped →
         returns (configure self model (Some raw) c d l)
                 (with_update_hook wm wrapped, Some wrapped, c, d, l))
    ∧ (∀ e, HybridParallelZeroOptimizer base_args = inl e →
         raises (configure self model (Some raw) c d l) e).
Proof.
  intros Hstage Hraw Hwm Hre Hkw Hforce.
  destruct (bind_zero_kwargs_returns_inv _ _ _ _ Hkw) as (_ & _ & Hverbose & Hclip & _).
  pose (a := zero_optimizer_args self raw' wm (get_param_info (Some raw)) kw).
  assert (Hbuild : outcome (build_optimizer_wrapper self raw' wm (get_param_info (Some raw)))
    = outcome (MoeHybridParallelZeroOptimizer a)).
  { rewrite build_optimizer_wrapper_zero, build_zero_optimizer_shape by done.
    by rewrite (call_zero_optimizer_bound _ _ _ _ _ Hkw). }
  rewrite (zero_optimizer_forced a Hforce) in Hbuild. simpl in Hbuild.
  eexists. split; [exact Hbuild|]. simpl.
  do 8 (split; [done|]).
  destruct (configure_raw_outcome self model raw c d l wm raw' Hraw Hwm Hre)
    as [Hfail Hok].
  split.
  - intros wrapped Hw. unfold returns. rewrite (Hok wrapped); [done|].
    unfold returns. by rewrite Hbuild.
  - intros e He. unfold raises. rewrite (Hfail e); [done|].
    unfold raises. by rewrite Hbuild.
Qed.

(** X17. At ZeRO stage 0, [configure] builds the AMP wrapper when the
    precision is fp16 or bf16 and the naive wrapper otherwise.  Either
    constructor receives the optimizer as reinitialized, the wrapped model,
    the plugin's pipeline flag, and the parameter info taken from the
    optimizer as it was passed in (before reinitialization); the AMP one
    also the precision, [max_norm] and [amp_config].  [configure] returns
    exactly the wrapper that constructor returns. *)
Theorem plain_wrapper_arguments self model raw c d l wm raw' :
  zero_stage (base self) = 0 →
  optim_is_wrapper raw = false →
  returns (wrap_model self model) wm →
  returns (reinitialize_if_ep self raw wm) raw' →
  (is_half_precision (precision (base self)) = true →
   ∀ wrapped,
     returns (configure self model (Some raw) c d l)
             (with_update_hook wm wrapped, Some wrapped, c, d, l)
     ↔ HybridParallelAMPOptimizer
         {| aa_optimizer := raw'; aa_model := wm;
            aa_use_pipeline := enable_pipeline_parallelism (base self);
            aa_param_info := get_param_info (Some raw);
            aa_precision := precision (base self);
            aa_max_norm := max_norm (base self);
            aa_amp_config := amp_config (base self) |} = inr wrapped)
  ∧ (is_half_precision (precision (base self)) = false →
     ∀ wrapped,
       returns (configure self model (Some raw) c d l)
               (with_update_hook wm wrapped, Some wrapped, c, d, l)
       ↔ HybridParallelNaiveOptimizer
           {| na_optimizer := raw'; na_model := wm;
              na_use_pipeline := enable_pipeline_parallelism (base self);
              na_param_info := get_param_info (Some raw) |} = inr wrapped).
Proof.
  intros Hstage Hraw Hwm Hre.
  pose proof (build_optimizer_wrapper_plain self raw' wm (get_param_info (Some raw)) Hstage)
    as Hbuild.
  assert (Hiff : ∀ wrapped,
    returns (configure self model (Some raw) c d l)
            (with_update_hook wm wrapped, Some wrapped, c, d, l)
    ↔ returns (build_optimizer_wrapper self raw' wm (get_param_info (Some raw))) wrapped).
  { intros wrapped. split.
    - intros Hret.
      destruct (configure_raw_returns_inv _ _ _ _ _ _ _ Hraw Hret)
        as (wm0 & raw0 & wrapped0 & Hwm0 & Hre0 & Hb & Hres & _).
      rewrite <- (returns_det _ _ _ Hwm Hwm0) in *.
      rewrite <- (returns_det _ _ _ Hre Hre0) in *.
      injection Hres as _ <-. exact Hb.
    - intros Hb. by apply (configure_raw_returns _ _ _ _ _ _ wm raw'). }
  split; intros Hhalf wrapped; rewrite Hiff, Hbuild, Hhalf; reflexivity.
Qed.

(** X18. Whenever [configure] returns for a plain optimizer, the returned
    model differs from the wrapped model in the attribute
    [update_master_params] only: every other instance attribute, the
    identity, the class and the parameters are those of the wrapped model,
    and an [update_master_params] attribute already present is replaced by
    the hook of the newly constructed wrapper. *)
Theorem injection_frame self model raw c d l
    (m' : Module) (o' : Optimizer) (c' : option Callable) (d' : option DataLoader)
    (l' : option LRScheduler) :
  optim_is_wrapper raw = false →
  returns (configure self model (Some raw) c d l) (m', Some o', c', d', l') →
  ∃ wm,
    returns (wrap_model self model) wm
    ∧ (∀ name : string, name ≠ "update_master_params" → getattr m' name = getattr wm name)
    ∧ getattr m' "update_master_params"
      = Some (MethodType (BoundMethod o' "update_master_params") (module_id wm))
    ∧ module_id m' = module_id wm
    ∧ module_is_wrapper m' = module_is_wrapper wm
    ∧ module_parameters m' = module_parameters wm.
Proof.
  intros Hraw Hret.
  destruct (configure_raw_returns_inv _ _ _ _ _ _ _ Hraw Hret)
    as (wm & raw' & wrapped & Hwm & _ & _ & [= -> -> -> -> ->] & _).
  exists wm. split; [done|]. unfold getattr, setattr. simpl. repeat split.
  - intros name Hname. by rewrite lookup_insert_ne.
  - by rewrite lookup_insert_eq.
Qed.

(** X19. With an expert-parallel size of at most 1, [configure] never
    calls [reinitialize_optimizer]: the wrapper step works on the optimizer
    exactly as it was passed in, right after the model step. *)
Theorem no_expert_parallelism_no_reinitialization self model raw c d l wm :
  ep_size self <= 1 →
  optim_is_wrapper raw = false →
  returns (wrap_model self model) wm →
  reinitialize_if_ep self raw wm = Run [] (inr raw)
  ∧ Forall (λ ev, is_reinitialization ev = false)
           (trace (configure self model (Some raw) c d l))
  ∧ (∃ rest : list event,
       trace (configure self model (Some raw) c d l)
       = trace (wrap_model self model)
         ++ trace (build_optimizer_wrapper self raw wm (get_param_info (Some raw)))
         ++ rest)
  ∧ (∀ wrapped,
       returns (build_optimizer_wrapper self raw wm (get_param_info (Some raw))) wrapped →
       returns (configure self model (Some raw) c d l)
               (with_update_hook wm wrapped, Some wrapped, c, d, l)).
Proof.
  intros Hep Hraw Hwm.
  assert (Hre : reinitialize_if_ep self raw wm = Run [] (inr raw)).
  { unfold reinitialize_if_ep.
    by destruct (Z.ltb_spec 1 (ep_size self)); [lia|]. }
  split; [exact Hre|]. split; [by apply no_reinitialization_without_ep|].
  assert (Hre' : returns (reinitialize_if_ep self raw wm) raw) by (by rewrite Hre).
  split.
  - rewrite (configure_raw _ _ _ _ _ _ Hraw).
    rewrite (trace_bind_returns _ _ _ Hwm), (trace_bind_returns _ _ _ Hre').
    destruct (trace_bind_prefix
                (build_optimizer_wrapper self raw wm (get_param_info (Some raw)))
                (λ wrapped, wm2 ← inject_update_master_params wm wrapped;
                            mret (wm2, Some wrapped, c, d, l))) as [rest Hrest].
    rewrite Hrest, Hre. by exists rest.
  - intros wrapped Hw. by apply (configure_raw_returns _ _ _ _ _ _ wm raw).
Qed.

(** X20. The wrapper step emits the ZeRO inefficiency warning exactly when
    the ZeRO stage is not 0 and neither the data-parallel size nor the
    expert-data-parallel size exceeds 1. *)
Theorem zero_warning_iff_degenerate self raw wm pinfo :
  Warn ZERO_DP1_WARNING ∈ trace (build_optimizer_wrapper self raw wm pinfo)
  ↔ zero_stage (base self) ≠ 0
    ∧ dp_size (base self) <= 1
    ∧ moe_dp_size self <= 1.
Proof.
  destruct (decide (zero_stage (base self) = 0)) as [Hstage|Hstage].
  - rewrite build_optimizer_wrapper_plain by done. split; [|by intros [? _]].
    destruct (is_half_precision _); simpl; intros Hin;
      apply list_elem_of_singleton in Hin; discriminate.
  - rewrite build_optimizer_wrapper_zero, build_zero_optimizer_shape by done. simpl.
    pose proof (call_zero_optimizer_trace_kinds self raw wm pinfo) as Hkinds.
    rewrite Forall_forall in Hkinds.
    destruct (Z.ltb_spec 1 (dp_size (base self))) as [Hdp|Hdp];
      destruct (Z.ltb_spec 1 (moe_dp_size self)) as [Hmoe|Hmoe]; simpl.
    all: split.
    all: try (intros Hin; exfalso; by apply (Hkinds _ Hin)).
    all: try (intros (_ & ? & ?); lia).
    + intros _. repeat split; [done|lia|lia].
    + intros _. apply elem_of_cons. by left.
Qed.

End ConfigureProperties.

Lemma expert_list_always_stored_witness :
  pg_param_list_of Demo.demo_is_moe (Some 7%positive) 7%positive [1; 2; 3; 4]%positive
    !! Some 7%positive
  = Some [2; 4]%positive.
Proof.
  destruct (expert_list_always_stored Demo.demo_is_moe (Some 7%positive) 7%positive
              [1; 2; 3; 4]%positive) as (_ & _ & _ & Hsame).
  apply Hsame. reflexivity.
Defined.

Lemma wrapper_kind_by_stage_witness :
  Forall (λ ev, is_zero_construction ev = false ∧ ev ≠ Warn ZERO_DP1_WARNING)
         (trace (configure (Demo.plugin 2 1 0 4 ∅ (VBool false)) Demo.raw_model
                   (Some Demo.raw_optimizer) None None None))
  ∧ Forall (λ ev, is_plain_construction ev = false)
           (trace (configure (Demo.plugin 1 1 1 8 Demo.overlap_config (VBool true))
                     Demo.raw_model (Some Demo.raw_optimizer) None None None)).
Proof.
  split.
  - apply (wrapper_kind_by_stage (Demo.plugin 2 1 0 4 ∅ (VBool false)) Demo.raw_model
             (Some Demo.raw_optimizer) None None None).
    reflexivity.
  - apply (wrapper_kind_by_stage (Demo.plugin 1 1 1 8 Demo.overlap_config (VBool true))
             Demo.raw_model (Some Demo.raw_optimizer) None None None).
    vm_compute. discriminate.
Defined.

Lemma model_wrapper_failure_propagates_witness :
  @configure Failing.collaborators (Demo.plugin 2 1 0 4 ∅ (VBool false)) Demo.raw_model
    (Some Demo.raw_optimizer) None None None
  = Run [CallHybridParallelModule Demo.raw_model] (inl (Raised "HybridParallelModule")).
Proof.
  apply (@model_wrapper_failure_propagates Failing.collaborators
           (Demo.plugin 2 1 0 4 ∅ (VBool false)) Demo.raw_model
           (Some Demo.raw_optimizer) None None None (Raised "HybridParallelModule")).
  reflexivity.
Defined.

Lemma configure_noop_on_wrappers_witness :
  configure (Demo.plugin 2 1 0 4 ∅ (VBool false)) Demo.wrapped_model
    (Some Demo.wrapped_optimizer) None None None
  = Run [] (inr (Demo.wrapped_model, Some Demo.wrapped_optimizer, None, None, None)).
Proof.
  apply (configure_noop_on_wrappers (Demo.plugin 2 1 0 4 ∅ (VBool false))
           Demo.wrapped_model (Some Demo.wrapped_optimizer) None None None).
  - reflexivity.
  - right. exists Demo.wrapped_optimizer. split; reflexivity.
Defined.

Lemma demo_bound_kw_returned :
  returns (bind_zero_kwargs (VFloat (0 # 1)) Demo.overlap_config ∅) demo_bound_kw.
Proof. vm_compute. reflexivity. Defined.

Lemma keyword_binding_witness :
  verbose demo_bound_kw = VBool true
  ∧ clip_grad_norm demo_bound_kw = VFloat (0 # 1).
Proof.
  destruct (keyword_binding (VFloat (0 # 1)) Demo.overlap_config ∅ demo_bound_kw
              demo_bound_kw_returned) as (_ & _ & Hverbose & Hclip & _).
  split; [exact Hverbose | exact Hclip].
Defined.

Lemma keyword_clash_is_type_error_witness :
  ∃ msg,
    raises (configure (Demo.plugin 1 1 1 8 demo_verbose_config (VBool true))
              Demo.raw_model (Some Demo.raw_optimizer) None None None)
           (TypeError msg).
Proof.
  destruct (keyword_clash_is_type_error
              (Demo.plugin 1 1 1 8 demo_verbose_config (VBool true))
              Demo.raw_model Demo.raw_optimizer None None None
              Demo.sharded_model Demo.raw_optimizer) as (Hraise & _).
  - vm_compute. discriminate.
  - reflexivity.
  - reflexivity.
  - reflexivity.
  - intros [_ Hsub]. specialize (Hsub "verbose").
    assert (Hin : "verbose" ∈ zero_config_keys).
    { apply (elem_of_list_to_set (C := gset string)). apply Hsub.
      apply elem_of_union_l, elem_of_dom. exists (VBool false). reflexivity. }
    unfold zero_config_keys in Hin.
    repeat (apply elem_of_cons in Hin as [Hin|Hin]; [discriminate Hin|]).
    by apply elem_of_nil in Hin.
  - exact Hraise.
Defined.

Lemma unforced_overlap_rejected_by_configure_witness :
  ∃ msg,
    raises (configure (Demo.plugin 1 1 1 8 Demo.overlap_config (VBool false))
              Demo.raw_model (Some Demo.raw_optimizer) None None None)
           (RuntimeError msg).
Proof.
  destruct (unforced_overlap_rejected_by_configure
              (Demo.plugin 1 1 1 8 Demo.overlap_config (VBool false))
              Demo.raw_model Demo.raw_optimizer None None None
              Demo.sharded_model Demo.raw_optimizer demo_bound_kw) as (Hraise & _).
  - vm_compute. discriminate.
  - reflexivity.
  - reflexivity.
  - reflexivity.
  - vm_compute. reflexivity.
  - reflexivity.
  - reflexivity.
  - exact Hraise.
Defined.

Lemma forced_overlap_through_configure_witness :
  ∃ base_args : ZeroBaseArgs,
    outcome (build_optimizer_wrapper
               (Demo.plugin 1 1 1 8 Demo.overlap_config (VBool true))
               Demo.raw_optimizer Demo.sharded_model
               (get_param_info (Some Demo.raw_optimizer)))
    = HybridParallelZeroOptimizer base_args
    ∧ overlap_communication (zb_kw base_args) = VBool true.
Proof.
  destruct (forced_overlap_through_configure
              (Demo.plugin 1 1 1 8 Demo.overlap_config (VBool true))
              Demo.raw_model Demo.raw_optimizer None None None
              Demo.sharded_model Demo.raw_optimizer demo_bound_kw)
    as (base_args & Hout & Hoverlap & _).
  - vm_compute. discriminate.
  - reflexivity.
  - reflexivity.
  - reflexivity.
  - vm_compute. reflexivity.
  - reflexivity.
  - exists base_args. split; [exact Hout | exact Hoverlap].
Defined.

Lemma plain_wrapper_arguments_witness :
  returns (configure (Demo.plugin 2 1 0 4 ∅ (VBool false)) Demo.raw_model
             (Some Demo.raw_optimizer) None None None)
          (with_update_hook Demo.sharded_model Demo.built_optimizer,
           Some Demo.built_optimizer, None, None, None).
Proof.
  destruct (plain_wrapper_arguments (Demo.plugin 2 1 0 4 ∅ (VBool false))
              Demo.raw_model Demo.raw_optimizer None None None
              Demo.sharded_model Demo.raw_optimizer) as [Hamp _].
  - reflexivity.
  - reflexivity.
  - reflexivity.
  - reflexivity.
  - apply (Hamp eq_refl Demo.built_optimizer). reflexivity.
Defined.

Lemma injection_frame_witness :
  ∃ wm,
    returns (wrap_model (Demo.plugin 2 1 0 4 ∅ (VBool false)) Demo.raw_model) wm
    ∧ getattr (Demo.hooked Demo.sharded_model) "update_master_params"
      = Some (MethodType (BoundMethod Demo.built_optimizer "update_master_params")
                         (module_id wm)).
Proof.
  assert (Hret : returns
            (configure (Demo.plugin 2 1 0 4 ∅ (VBool false)) Demo.raw_model
               (Some Demo.raw_optimizer) None None None)
            (Demo.hooked Demo.sharded_model, Some Demo.built_optimizer, None, None, None))
    by (vm_compute; reflexivity).
  destruct (injection_frame _ Demo.raw_model Demo.raw_optimizer _ _ _ _ _ _ _ _
              eq_refl Hret) as (wm & Hwm & _ & Hhook & _).
  exists wm. split; [exact Hwm | exact Hhook].
Defined.

Lemma no_expert_parallelism_no_reinitialization_witness :
  reinitialize_if_ep (Demo.plugin 2 1 0 1 ∅ (VBool false)) Demo.raw_optimizer
    Demo.sharded_model
  = Run [] (inr Demo.raw_optimizer).
Proof.
  apply (no_expert_parallelism_no_reinitialization
           (Demo.plugin 2 1 0 1 ∅ (VBool false)) Demo.raw_model Demo.raw_optimizer
           None None None Demo.sharded_model).
  - vm_compute. discriminate.
  - reflexivity.
  - reflexivity.
Defined.

Lemma zero_warning_iff_degenerate_witness :
  Warn ZERO_DP1_WARNING
  ∈ trace (build_optimizer_wrapper
             (Demo.plugin 1 1 1 8 Demo.overlap_config (VBool true))
             Demo.raw_optimizer Demo.sharded_model 1%positive).
Proof.
  apply (zero_warning_iff_degenerate
           (Demo.plugin 1 1 1 8 Demo.overlap_config (VBool true))
           Demo.raw_optimizer Demo.sharded_model 1%positive).
  split; [|split]; vm_compute; discriminate.
Defined.
